(** * Product controller: preview-image handling

    A shallow embedding of [src/controllers/product.controller.ts]: the
    replace-by-id handler that turns an inline base64 image into a stored
    file, the delete-by-id handler that removes the stored file, and the
    image-serving handler.

    The pure string computations of the controller are Rocq functions on
    [string]; the effects (repository calls, [fs.writeFile], [fs.unlink],
    [console.warn]) are the constructors of a small command type [task],
    run against an explicit world (record store and file store) and an
    oracle that decides which file operations fail. *)

From Stdlib Require Import Ascii String NArith Bool.
From stdpp Require Import gmap strings list fin_maps.

Local Open Scope string_scope.
Local Open Scope list_scope.

(** ** JavaScript string primitives used by the controller

    Strings are sequences of 8-bit characters; every character the
    controller looks for is an ASCII character. *)

Module Js.

(** [s.startsWith(p)] *)
Definition startsWith (s p : string) : bool := String.prefix p s.

(** [s.split(sep)] for a one-character separator: never empty. *)
Fixpoint split (sep : ascii) (s : string) : list string :=
  match s with
  | EmptyString => [""]
  | String c s' =>
      if Ascii.eqb c sep then "" :: split sep s'
      else match split sep s' with
           | [] => [String c ""]
           | h :: t => String c h :: t
           end
  end.

(** [xs[0]] on the result of a split (which always has a first element). *)
Definition first (xs : list string) : string := hd "" xs.

(** [xs.pop()]: the last element, [undefined] on an empty array. *)
Definition pop (xs : list string) : option string := last xs.

(** Truthiness of a possibly-undefined string: defined and non-empty. *)
Definition truthy (v : option string) : bool :=
  match v with
  | Some s => negb (String.eqb s "")
  | None => false
  end.

(** A value interpolated in a template literal. *)
Definition interpolate (v : option string) : string :=
  match v with
  | Some s => s
  | None => "undefined"
  end.

(** [s.match(/jpeg|png|jpg/)?.[0]]: the leftmost match, alternatives tried
    in order at each position. *)
Fixpoint match_jpeg_png_jpg (s : string) : option string :=
  if startsWith s "jpeg" then Some "jpeg"
  else if startsWith s "png" then Some "png"
  else if startsWith s "jpg" then Some "jpg"
  else match s with
       | EmptyString => None
       | String _ s' => match_jpeg_png_jpg s'
       end.

(** The class [\w]: [A-Za-z0-9_]. *)
Definition is_word_char (c : ascii) : bool :=
  let n := N_of_ascii c in
  ((65 <=? n) && (n <=? 90) || (97 <=? n) && (n <=? 122)
   || (48 <=? n) && (n <=? 57) || (n =? 95))%N.

(** The remainder of [s] after its longest run of word characters. *)
Fixpoint drop_word (s : string) : string :=
  match s with
  | String c s' => if is_word_char c then drop_word s' else s
  | EmptyString => EmptyString
  end.

(** [s] without the literal prefix [p], when it has it. *)
Fixpoint strip_literal (p s : string) : option string :=
  match p, s with
  | EmptyString, _ => Some s
  | String a p', String b s' => if Ascii.eqb a b then strip_literal p' s' else None
  | String _ _, EmptyString => None
  end.

(** [s.replace(/^data:image\/\w+;base64,/, '')]. The greedy [\w+] must be
    followed by [;], which is not a word character, so only the longest
    run of word characters can lead to a match. *)
Definition replace_data_image_prefix (s : string) : string :=
  match strip_literal "data:image/" s with
  | Some r =>
      match r with
      | String c _ =>
          if is_word_char c then
            match strip_literal ";base64," (drop_word r) with
            | Some payload => payload
            | None => s
            end
          else s
      | EmptyString => s
      end
  | None => s
  end.

End Js.

(** ** [Buffer.from(data, 'base64')]

    Node's decoder is lenient: characters outside the base64 alphabets
    (standard and URL-safe) are skipped, decoding stops at the first [=],
    and a dangling single sextet yields no byte. *)

Module Base64.

Definition unbase64 (c : ascii) : option N :=
  let n := N_of_ascii c in
  (if (65 <=? n) && (n <=? 90) then Some (n - 65)
   else if (97 <=? n) && (n <=? 122) then Some (n - 71)
   else if (48 <=? n) && (n <=? 57) then Some (n + 4)
   else if (n =? 43) || (n =? 45) then Some 62
   else if (n =? 47) || (n =? 95) then Some 63
   else None)%N.

Fixpoint sextets (s : string) : list N :=
  match s with
  | EmptyString => []
  | String c s' =>
      if Ascii.eqb c "="%char then []
      else match unbase64 c with
           | Some v => v :: sextets s'
           | None => sextets s'
           end
  end.

Definition octet (n : N) : Byte.byte := byte_of_ascii (ascii_of_N (n mod 256)).

Fixpoint octets (l : list N) : list Byte.byte :=
  match l with
  | a :: b :: c :: d :: r =>
      octet (a * 4 + b / 16) :: octet (b * 16 + c / 4) :: octet (c * 64 + d)
        :: octets r
  | [a; b; c] => [octet (a * 4 + b / 16); octet (b * 16 + c / 4)]
  | [a; b] => [octet (a * 4 + b / 16)]
  | _ => []
  end%N.

Definition decode (s : string) : list Byte.byte := octets (sextets s).

End Base64.

Definition Buffer_from_base64 (data : string) : list Byte.byte := Base64.decode data.

(** ** POSIX [path.join] and [path.resolve] *)

Module Path.

Definition is_absolute (p : string) : bool := Js.startsWith p "/".

(** Node's [normalizeString] on the segments of a path: empty and [.]
    segments vanish; [..] removes the segment before it, and is kept only
    at the front of a relative path. [stack] holds the result so far, last
    segment first. *)
Fixpoint normalize_segments (allowAboveRoot : bool) (stack segs : list string)
  : list string :=
  match segs with
  | [] => rev stack
  | seg :: rest =>
      if String.eqb seg "" || String.eqb seg "." then
        normalize_segments allowAboveRoot stack rest
      else if String.eqb seg ".." then
        match stack with
        | top :: below =>
            if String.eqb top ".." then
              normalize_segments allowAboveRoot
                (if allowAboveRoot then seg :: stack else stack) rest
            else normalize_segments allowAboveRoot below rest
        | [] =>
            normalize_segments allowAboveRoot
              (if allowAboveRoot then [seg] else []) rest
        end
      else normalize_segments allowAboveRoot (seg :: stack) rest
  end.

Definition normalizeString (p : string) (allowAboveRoot : bool) : string :=
  String.concat "/" (normalize_segments allowAboveRoot [] (Js.split "/" p)).

Definition ends_with_slash (p : string) : bool :=
  match Js.pop (Js.split "/" p) with
  | Some "" => negb (String.eqb p "")
  | _ => false
  end.

Definition normalize (p : string) : string :=
  if String.eqb p "" then "."
  else
    let n := normalizeString p (negb (is_absolute p)) in
    if String.eqb n "" then
      if is_absolute p then "/" else if ends_with_slash p then "./" else "."
    else
      let n' := if ends_with_slash p then n +:+ "/" else n in
      if is_absolute p then "/" +:+ n' else n'.

(** [path.join(...args)] *)
Definition join (args : list string) : string :=
  match filter (fun a => a ≠ "") args with
  | [] => "."
  | parts => normalize (String.concat "/" parts)
  end.

(** The loop of [path.resolve], from the last argument down to the current
    working directory, until an absolute path has been built. *)
Fixpoint resolve_loop (cwd : string) (rev_args : list string) (resolvedPath : string)
  : string * bool :=
  match rev_args with
  | [] =>
      if String.eqb cwd "" then (resolvedPath, false)
      else (cwd +:+ "/" +:+ resolvedPath, is_absolute cwd)
  | p :: rest =>
      if String.eqb p "" then resolve_loop cwd rest resolvedPath
      else if is_absolute p then (p +:+ "/" +:+ resolvedPath, true)
      else resolve_loop cwd rest (p +:+ "/" +:+ resolvedPath)
  end.

(** [path.resolve(...args)], with [cwd] the value of [process.cwd()]. *)
Definition resolve (cwd : string) (args : list string) : string :=
  let '(resolvedPath, resolvedAbsolute) := resolve_loop cwd (rev args) "" in
  let n := normalizeString resolvedPath (negb resolvedAbsolute) in
  if resolvedAbsolute then "/" +:+ n
  else if String.eqb n "" then "." else n.

End Path.

(** ** Data model *)

(** Modelled from the spec: the [Product] model class ([../models]) is a
    record with a store-assigned identifier, an optional [previewImage]
    string and further properties the controller never looks at. *)
Module Product.

Record t : Type := mk {
  id : option string;
  previewImage : option string;
  properties : list (string * string)
}.

(** [product.previewImage = v] *)
Definition set_previewImage (v : string) (product : t) : t :=
  {| id := id product; previewImage := Some v; properties := properties product |}.

End Product.

Abbreviation Product := Product.t.

(** The part of the inbound request the controller reads: [req.protocol]
    and [req.headers.host]. *)
Record Request : Type := {
  protocol : string;
  headers_host : option string
}.

Inductive error : Type :=
| EntityNotFound (id : option string)
| FsError (code : string)
| InvalidArgValue (path : string).

Inductive outcome : Type :=
| Resolved
| Rejected (e : error).

(** ** Effects *)

(** What a handler does, in program order. [WriteFile] and [Unlink] only
    start the operation and register the callback; the continuation [k]
    runs at once, the callback when the operation has completed. When the
    call throws, neither runs. *)
Inductive task : Type :=
| Done
| AwaitFindById (id : string) (k : Product -> task)
| AwaitReplaceById (id : option string) (product : Product) (k : task)
| AwaitDeleteById (id : string) (k : task)
| WriteFile (path : string) (data : list Byte.byte) (callback : option error -> task) (k : task)
| Unlink (path : string) (callback : option error -> task) (k : task)
| ConsoleWarn (message : string) (e : error) (k : task)
| SendFile (path : string) (k : task).

(** Sequencing of two statements on the main line of a handler. *)
Fixpoint seq (t k : task) : task :=
  match t with
  | Done => k
  | AwaitFindById id f => AwaitFindById id (fun p => seq (f p) k)
  | AwaitReplaceById id p t' => AwaitReplaceById id p (seq t' k)
  | AwaitDeleteById id t' => AwaitDeleteById id (seq t' k)
  | WriteFile path data cb t' => WriteFile path data cb (seq t' k)
  | Unlink path cb t' => Unlink path cb (seq t' k)
  | ConsoleWarn m e t' => ConsoleWarn m e (seq t' k)
  | SendFile path t' => SendFile path (seq t' k)
  end.

Notation "t ;; k" := (seq t k) (at level 100, right associativity).

(** What an observer of the collaborators sees. *)
Inductive event : Type :=
| EvFindById (id : string)
| EvReplaceById (id : option string) (product : Product)
| EvDeleteById (id : string)
| EvWriteFile (path : string) (data : list Byte.byte)
| EvWriteFileDone (path : string) (err : option error)
| EvUnlink (path : string)
| EvUnlinkDone (path : string) (err : option error)
| EvConsoleWarn (message : string) (e : error)
| EvSendFile (path : string)
| EvSettled (o : outcome)
| EvUnhandledRejection (e : error).

(** The Record Store and the File Store. *)
Record world : Type := {
  store : gmap string Product;
  files : gmap string (list Byte.byte)
}.

Definition set_store (s : gmap string Product) (w : world) : world :=
  {| store := s; files := files w |}.

Definition set_files (f : gmap string (list Byte.byte)) (w : world) : world :=
  {| store := store w; files := f |}.

(** [fs.writeFile] and [fs.unlink] validate the path when they are called:
    for a path that holds a NUL byte the call itself throws, and no
    operation is started. *)
Module Fs.

Fixpoint has_nul (path : string) : bool :=
  match path with
  | EmptyString => false
  | String c path' => Ascii.eqb c Ascii.zero || has_nul path'
  end.

End Fs.

(** Which of the file operations that are started fail, and how: the part
    the file system decides. *)
Record io_env : Type := {
  writeFile_failure : string -> list Byte.byte -> option error;
  unlink_failure : string -> option error
}.

(** The error a write of [data] to [path] runs into, if any: the refusal of
    the path at the call, or else the failure of the operation. *)
Definition writeFile_error (env : io_env) (path : string) (data : list Byte.byte)
  : option error :=
  if Fs.has_nul path then Some (InvalidArgValue path)
  else writeFile_failure env path data.

(** The same for the removal of [path]. *)
Definition unlink_error (env : io_env) (path : string) : option error :=
  if Fs.has_nul path then Some (InvalidArgValue path)
  else unlink_failure env path.

(** Modelled from the spec: the Record Store ([ProductRepository], in
    [../repositories]) keeps records by identifier; the id-keyed operations
    fail with NotFound when the record is absent. *)
Module Repository.

Definition findById (id : string) (s : gmap string Product) : error + Product :=
  match s !! id with
  | Some p => inr p
  | None => inl (EntityNotFound (Some id))
  end.

Definition replaceById (id : option string) (product : Product) (s : gmap string Product)
  : error + gmap string Product :=
  match id with
  | Some i =>
      match s !! i with
      | Some _ => inr (<[i := product]> s)
      | None => inl (EntityNotFound id)
      end
  | None => inl (EntityNotFound None)
  end.

Definition deleteById (id : string) (s : gmap string Product)
  : error + gmap string Product :=
  match s !! id with
  | Some _ => inr (delete id s)
  | None => inl (EntityNotFound (Some id))
  end.

End Repository.

(** ** Running a handler *)

(** The callbacks still to run once the handler has given control back. *)
Definition deferred : Type := world -> world * list event.

Definition no_deferred : deferred := fun w => (w, []).

Definition unhandled (o : outcome) : list event :=
  match o with
  | Resolved => []
  | Rejected e => [EvUnhandledRejection e]
  end.

(** The main line of a task: the events up to the point where its promise
    settles, the outcome, and the callbacks it has left behind. A rejected
    [await] ends the main line, and so does a file-system call that throws;
    callbacks registered before it still run. *)
Fixpoint exec (env : io_env) (t : task) (w : world)
  : world * list event * outcome * deferred :=
  match t with
  | Done => (w, [], Resolved, no_deferred)
  | AwaitFindById id k =>
      match Repository.findById id (store w) with
      | inr p =>
          let '(w', tr, o, d) := exec env (k p) w in
          (w', EvFindById id :: tr, o, d)
      | inl e => (w, [EvFindById id], Rejected e, no_deferred)
      end
  | AwaitReplaceById id product k =>
      match Repository.replaceById id product (store w) with
      | inr s =>
          let '(w', tr, o, d) := exec env k (set_store s w) in
          (w', EvReplaceById id product :: tr, o, d)
      | inl e => (w, [EvReplaceById id product], Rejected e, no_deferred)
      end
  | AwaitDeleteById id k =>
      match Repository.deleteById id (store w) with
      | inr s =>
          let '(w', tr, o, d) := exec env k (set_store s w) in
          (w', EvDeleteById id :: tr, o, d)
      | inl e => (w, [EvDeleteById id], Rejected e, no_deferred)
      end
  | WriteFile path data callback k =>
      if Fs.has_nul path then
        (w, [EvWriteFile path data], Rejected (InvalidArgValue path), no_deferred)
      else
      let '(w', tr, o, d) := exec env k w in
      (w', EvWriteFile path data :: tr, o,
       fun w0 =>
         let err := writeFile_error env path data in
         let w1 := match err with
                   | None => set_files (<[path := data]> (files w0)) w0
                   | Some _ => w0
                   end in
         let '(w2, trc, oc, dc) := exec env (callback err) w1 in
         let '(w3, trd) := d w2 in
         let '(w4, trdc) := dc w3 in
         (w4, EvWriteFileDone path err :: trc ++ unhandled oc ++ trd ++ trdc))
  | Unlink path callback k =>
      if Fs.has_nul path then
        (w, [EvUnlink path], Rejected (InvalidArgValue path), no_deferred)
      else
      let '(w', tr, o, d) := exec env k w in
      (w', EvUnlink path :: tr, o,
       fun w0 =>
         let err := unlink_error env path in
         let w1 := match err with
                   | None => set_files (delete path (files w0)) w0
                   | Some _ => w0
                   end in
         let '(w2, trc, oc, dc) := exec env (callback err) w1 in
         let '(w3, trd) := d w2 in
         let '(w4, trdc) := dc w3 in
         (w4, EvUnlinkDone path err :: trc ++ unhandled oc ++ trd ++ trdc))
  | ConsoleWarn message e k =>
      let '(w', tr, o, d) := exec env k w in
      (w', EvConsoleWarn message e :: tr, o, d)
  | SendFile path k =>
      let '(w', tr, o, d) := exec env k w in
      (w', EvSendFile path :: tr, o, d)
  end.

(** A whole request: the main line, the moment the handler's promise settles
    (the response goes out), then the callbacks. In [replaceById] nothing
    is awaited after the write has been started, so its promise does settle
    before the write callback can run. In [deleteById] the completion of
    [fs.unlink] may also come before the repository has answered; the run
    below is one of the possible schedules, and nothing proved about
    [deleteById] depends on which. *)
Definition handle (env : io_env) (t : task) (w : world) : world * list event :=
  let '(w1, tr, o, d) := exec env t w in
  let '(w2, trd) := d w1 in
  (w2, tr ++ EvSettled o :: trd).

(** The outcome reported to the caller of the handler. *)
Definition response (env : io_env) (t : task) (w : world) : outcome :=
  let '(_, _, o, _) := exec env t w in o.

(** ** The controller *)

Definition IMAGE_FOLDER : string := "images".
Definition PRODUCT_IMAGE_FOLDER : string := "product".
Definition PRODUCT_IMAGE_PREVIEW_PREFIX : string := "preview_".

Record ProductController : Type := {
  req : Request;
  imageStorageDirectory : string
}.

(** The constructor. *)
Definition new_ProductController (req : Request) : ProductController :=
  {| req := req;
     imageStorageDirectory := Path.join [IMAGE_FOLDER; PRODUCT_IMAGE_FOLDER] |}.

Definition handleRawImageProductReplacement (this : ProductController) (product : Product)
  : task :=
  match Product.previewImage product with
  | Some previewImage =>
      if String.eqb previewImage "" then
        AwaitReplaceById (Product.id product) product Done
      else
        let ext :=
          default "" (Js.match_jpeg_png_jpg (Js.first (Js.split ";" previewImage))) in
        let data := Js.replace_data_image_prefix previewImage in
        let buf := Buffer_from_base64 data in
        let storageFileName :=
          PRODUCT_IMAGE_PREVIEW_PREFIX +:+ Js.interpolate (Product.id product)
            +:+ "." +:+ ext in
        WriteFile (imageStorageDirectory this +:+ "/" +:+ storageFileName) buf
          (fun error =>
             let product' :=
               match error with
               | Some _ => product
               | None =>
                   Product.set_previewImage
                     (protocol (req this) +:+ "://"
                        +:+ Js.interpolate (headers_host (req this))
                        +:+ "/product-images/" +:+ storageFileName)
                     product
               end in
             match error with
             | Some e =>
                 ConsoleWarn
                   ("Error writing preview image for product "
                      +:+ Js.interpolate (Product.id product)) e Done
             | None => Done
             end ;;
             AwaitReplaceById (Product.id product') product' Done)
          Done
  | None => AwaitReplaceById (Product.id product) product Done
  end.

Definition replaceById (this : ProductController) (id : string) (product : Product)
  : task :=
  if match Product.previewImage product with
     | Some previewImage => Js.startsWith previewImage "data:image"
     | None => false
     end
  then handleRawImageProductReplacement this product
  else AwaitReplaceById (Some id) product Done.

Definition deleteProductPreviewImage (this : ProductController) (product : Product)
  : task :=
  let previewFileName :=
    match Product.previewImage product with
    | Some previewImage => Js.pop (Js.split "/" previewImage)
    | None => None
    end in
  if Js.truthy previewFileName then
    Unlink (imageStorageDirectory this +:+ "/" +:+ Js.interpolate previewFileName)
      (fun error =>
         match error with
         | Some e =>
             ConsoleWarn
               ("Error deleting preview image for product "
                  +:+ Js.interpolate (Product.id product)) e Done
         | None => Done
         end)
      Done
  else Done.

Definition deleteById (this : ProductController) (id : string) : task :=
  AwaitFindById id (fun product =>
    (if Js.truthy (Product.previewImage product)
     then deleteProductPreviewImage this product
     else Done) ;;
    AwaitDeleteById id Done).

(** [cwd] is the working directory of the process, against which
    [path.resolve] completes a relative path. *)
Definition sendFile (this : ProductController) (cwd : string) (fileName : string) : task :=
  let filePath := Path.resolve cwd [imageStorageDirectory this; fileName] in
  SendFile filePath Done.

(** * Vocabulary of the statements *)

(** ** What the replace handler computes *)

(** Whether a [previewImage] value sends [replaceById] down the file-writing
    branch. *)
Definition takes_data_uri_branch (previewImage : option string) : bool :=
  match previewImage with
  | Some s => Js.startsWith s "data:image"
  | None => false
  end.

Definition extension_of (previewImage : string) : string :=
  default "" (Js.match_jpeg_png_jpg (Js.first (Js.split ";" previewImage))).

Definition storageFileName_of (product : Product) (previewImage : string) : string :=
  PRODUCT_IMAGE_PREVIEW_PREFIX +:+ Js.interpolate (Product.id product)
    +:+ "." +:+ extension_of previewImage.

Definition storage_path_of (this : ProductController) (product : Product)
    (previewImage : string) : string :=
  imageStorageDirectory this +:+ "/" +:+ storageFileName_of product previewImage.

Definition public_url_of (this : ProductController) (product : Product)
    (previewImage : string) : string :=
  protocol (req this) +:+ "://" +:+ Js.interpolate (headers_host (req this))
    +:+ "/product-images/" +:+ storageFileName_of product previewImage.

(** The outcome of the repository call made from the write callback. *)
Definition replace_outcome (id : option string) (product : Product) (w : world) : outcome :=
  match Repository.replaceById id product (store w) with
  | inr _ => Resolved
  | inl e => Rejected e
  end.

(** The record handed to the Record Store, given the result of the write. *)
Definition record_after_write (this : ProductController) (product : Product)
    (previewImage : string) (err : option error) : Product :=
  match err with
  | Some _ => product
  | None => Product.set_previewImage (public_url_of this product previewImage) product
  end.

(** What the write callback logs. *)
Definition warning_after_write (product : Product) (err : option error) : list event :=
  match err with
  | Some e =>
      [EvConsoleWarn
         ("Error writing preview image for product "
            +:+ Js.interpolate (Product.id product)) e]
  | None => []
  end.

(** ** Concrete surroundings for the examples *)

Definition example_request : Request :=
  {| protocol := "http"; headers_host := Some "h" |}.

Definition io_ok : io_env :=
  {| writeFile_failure := fun _ _ => None; unlink_failure := fun _ => None |}.

Definition io_failing : io_env :=
  {| writeFile_failure := fun _ _ => Some (FsError "EACCES");
     unlink_failure := fun _ => Some (FsError "ENOENT") |}.

Definition blank (id : string) : Product := Product.mk (Some id) None [].

Definition two_products : world :=
  {| store := <["1" := blank "1"]> (<["2" := blank "2"]> ∅); files := ∅ |}.

(** ** The shape of a data-URI *)

(** The shape [data:image/<subtype>;base64,<payload>], the subtype being a
    non-empty run of word characters. *)
Definition well_formed_data_uri (s : string) : Prop :=
  exists subtype payload,
    s = "data:image/" +:+ subtype +:+ ";base64," +:+ payload
    /\ subtype <> ""
    /\ Forall (fun c => Js.is_word_char c = true) (list_ascii_of_string subtype).

(** The longest run of word characters at the front of [s]. *)
Fixpoint take_word (s : string) : string :=
  match s with
  | String c s' => if Js.is_word_char c then String c (take_word s') else ""
  | EmptyString => ""
  end.

(** ** What the delete handler computes *)

(** The file name the delete handler derives: the text after the last [/]
    of [previewImage]. *)
Definition previewFileName_of (product : Product) : option string :=
  match Product.previewImage product with
  | Some previewImage => Js.pop (Js.split "/" previewImage)
  | None => None
  end.

(** What follows the completion of the file deletion. *)
Definition unlink_events (this : ProductController) (product : Product)
    (err : option error) : list event :=
  EvUnlinkDone
    (imageStorageDirectory this +:+ "/" +:+ Js.interpolate (previewFileName_of product))
    err
  :: match err with
     | Some e =>
         [EvConsoleWarn
            ("Error deleting preview image for product "
               +:+ Js.interpolate (Product.id product)) e]
     | None => []
     end.

(** A Record Store holding just [product]. *)
Definition one_product (product : Product) : world :=
  {| store := <[Js.interpolate (Product.id product) := product]> ∅; files := ∅ |}.

(** ** Data-URIs in the Record Store *)

Definition is_data_uri (v : string) : bool := Js.startsWith v "data:image".

Definition free_of_data_uri (product : Product) : Prop :=
  forall v, Product.previewImage product = Some v -> is_data_uri v = false.

(** No persisted record has a data-URI for [previewImage]. *)
Definition no_data_uri_persisted (s : gmap string Product) : Prop :=
  forall key product, s !! key = Some product -> free_of_data_uri product.

(** The calls that write to the Record Store through this controller's own
    logic, each with the request it was made in. *)
Inductive call : Type :=
| Put (r : Request) (id : string) (product : Product)
| Delete (r : Request) (id : string).

Definition task_of (c : call) : task :=
  match c with
  | Put r id product => replaceById (new_ProductController r) id product
  | Delete r id => deleteById (new_ProductController r) id
  end.

(** Serving calls one after the other, each under its own file-store oracle. *)
Fixpoint serve (calls : list (io_env * call)) (w : world) : world :=
  match calls with
  | [] => w
  | (env, c) :: rest => serve rest (handle env (task_of c) w).1
  end.

(** A replace call whose file write cannot fail, made over http or https. *)
Definition undisturbed (ec : io_env * call) : Prop :=
  match ec.2 with
  | Put r _ _ =>
      (forall path data, writeFile_failure ec.1 path data = None)
      /\ (protocol r = "http" \/ protocol r = "https")
  | Delete _ _ => True
  end.

(** ** File names given to the image-serving handler *)

(** A file name with a path-traversal sequence: absolute, or with a [..]
    component. *)
Definition has_traversal (fileName : string) : bool :=
  Path.is_absolute fileName || existsb (String.eqb "..") (Js.split "/" fileName).

(** The image directory as an absolute path. *)
Definition image_directory (this : ProductController) (cwd : string) : string :=
  Path.resolve cwd [imageStorageDirectory this].

Definition inside_image_directory (this : ProductController) (cwd path : string) : bool :=
  Js.startsWith path (image_directory this cwd +:+ "/").

(** What a handler that guards against path traversal would guarantee for
    one file name. *)
Definition rejects_traversal (this : ProductController) (cwd : string)
    (env : io_env) (w : world) (fileName : string) : Prop :=
  has_traversal fileName = true ->
  (exists e, response env (sendFile this cwd fileName) w = Rejected e)
  /\ forall path,
       EvSendFile path ∈ (handle env (sendFile this cwd fileName) w).2 ->
       inside_image_directory this cwd path = true.

(** A path segment that is an ordinary name. *)
Definition plain_segment (s : string) : Prop :=
  s <> "" /\ s <> "." /\ s <> ".."
  /\ Forall (fun c => c <> "/"%char) (list_ascii_of_string s).

(** ** Base64 text *)

(** The standard alphabet, and the text that encodes a sequence of bytes:
    what a decoder of base64 has to undo. *)
Definition base64_alphabet : string :=
  "ABCDEFGHIJKLMNOPQRSTUVWXYZabcdefghijklmnopqrstuvwxyz0123456789+/".

Definition base64_char (n : N) : ascii :=
  default "A"%char (String.get (N.to_nat n) base64_alphabet).

Fixpoint base64_encode (bytes : list Byte.byte) : string :=
  match bytes with
  | a :: b :: c :: rest =>
      let x := Byte.to_N a in
      let y := Byte.to_N b in
      let z := Byte.to_N c in
      String (base64_char (x / 4))
        (String (base64_char ((x mod 4) * 16 + y / 16))
           (String (base64_char ((y mod 16) * 4 + z / 64))
              (String (base64_char (z mod 64)) (base64_encode rest))))
  | [a; b] =>
      let x := Byte.to_N a in
      let y := Byte.to_N b in
      String (base64_char (x / 4))
        (String (base64_char ((x mod 4) * 16 + y / 16))
           (String (base64_char ((y mod 16) * 4)) "="))
  | [a] =>
      let x := Byte.to_N a in
      String (base64_char (x / 4)) (String (base64_char ((x mod 4) * 16)) "==")
  | [] => ""
  end%N.

(** ** Identifiers with a NUL byte *)

(** The identifier made of the digit 1 and a NUL byte. *)
Definition id_with_nul : string := String "1" (String Ascii.zero "").

(** ** Names without a path separator *)

(** No [/] occurs in [s]. *)
Definition no_slash (s : string) : Prop :=
  Forall (fun c => c <> "/"%char) (list_ascii_of_string s).

(** The extensions the replace handler can derive. *)
Definition known_extension (ext : string) : Prop :=
  ext = "" \/ ext = "jpeg" \/ ext = "png" \/ ext = "jpg".

(** * Properties *)

(** ** Strings *)

Lemma startsWith_data_image_nonempty (s : string) :
  Js.startsWith s "data:image" = true -> String.eqb s "" = false.
Proof. destruct s as [|c s]; [discriminate | reflexivity]. Qed.

Lemma takes_data_uri_branch_Some (v : option string) :
  takes_data_uri_branch v = true ->
  exists s, v = Some s /\ Js.startsWith s "data:image" = true.
Proof. destruct v as [s|]; [eauto | discriminate]. Qed.

(** ** Paths the file system refuses *)

Lemma writeFile_error_None (env : io_env) (path : string) (data : list Byte.byte) :
  writeFile_error env path data = None -> Fs.has_nul path = false.
Proof. unfold writeFile_error. by destruct (Fs.has_nul path). Qed.

Lemma unlink_error_None (env : io_env) (path : string) :
  unlink_error env path = None -> Fs.has_nul path = false.
Proof. unfold unlink_error. by destruct (Fs.has_nul path). Qed.

Lemma has_nul_app (a b : string) :
  Fs.has_nul (a +:+ b) = Fs.has_nul a || Fs.has_nul b.
Proof.
  induction a as [|c a IH]; [reflexivity|].
  change (String c a +:+ b) with (String c (a +:+ b)).
  cbn [Fs.has_nul]. rewrite IH. by rewrite orb_assoc.
Qed.

(** ** The data-URI branch, step by step *)

Section DataUriBranch.

Variables (this : ProductController) (id : string) (product : Product).
Variable previewImage : string.
Hypothesis Hpreview : Product.previewImage product = Some previewImage.
Hypothesis Hprefix : Js.startsWith previewImage "data:image" = true.

Let path := storage_path_of this product previewImage.
Let buf := Buffer_from_base64 (Js.replace_data_image_prefix previewImage).

Lemma replaceById_data_uri_task :
  replaceById this id product =
  WriteFile path buf
    (fun error =>
       let product' :=
         match error with
         | Some _ => product
         | None =>
             Product.set_previewImage (public_url_of this product previewImage) product
         end in
       match error with
       | Some e =>
           ConsoleWarn
             ("Error writing preview image for product "
                +:+ Js.interpolate (Product.id product)) e Done
       | None => Done
       end ;;
       AwaitReplaceById (Product.id product') product' Done)
    Done.
Proof.
  unfold replaceById, handleRawImageProductReplacement.
  rewrite Hpreview, Hprefix, (startsWith_data_image_nonempty _ Hprefix).
  reflexivity.
Qed.

(** A storage path with a NUL byte: [fs.writeFile] throws, the handler
    rejects, and nothing else happens. *)
Lemma replaceById_data_uri_refused (env : io_env) (w : world) :
  Fs.has_nul path = true ->
  handle env (replaceById this id product) w =
    (w, [EvWriteFile path buf; EvSettled (Rejected (InvalidArgValue path))])
  /\ response env (replaceById this id product) w = Rejected (InvalidArgValue path).
Proof.
  intros Hnul. rewrite replaceById_data_uri_task.
  unfold handle, response. cbn [exec]. rewrite Hnul. split; reflexivity.
Qed.

Lemma replaceById_data_uri_trace (env : io_env) (w : world) :
  Fs.has_nul path = false ->
  let err := writeFile_error env path buf in
  let w1 := match err with
            | None => set_files (<[path := buf]> (files w)) w
            | Some _ => w
            end in
  (handle env (replaceById this id product) w).2 =
    EvWriteFile path buf :: EvSettled Resolved :: EvWriteFileDone path err ::
      warning_after_write product err ++
      EvReplaceById (Product.id product)
        (record_after_write this product previewImage err) ::
      unhandled
        (replace_outcome (Product.id product)
           (record_after_write this product previewImage err) w1).
Proof.
  intros Hnul. rewrite replaceById_data_uri_task.
  unfold handle, replace_outcome, record_after_write, warning_after_write.
  cbn [exec no_deferred]. rewrite Hnul.
  destruct (writeFile_error env path buf) as [e|];
    cbn [seq exec store set_files Product.id Product.set_previewImage];
    match goal with
    | |- context [Repository.replaceById ?i ?p ?s] =>
        destruct (Repository.replaceById i p s)
    end; reflexivity.
Qed.

Lemma replaceById_data_uri_response (env : io_env) (w : world) :
  Fs.has_nul path = false ->
  response env (replaceById this id product) w = Resolved.
Proof.
  intros Hnul. rewrite replaceById_data_uri_task.
  unfold response. cbn [exec]. by rewrite Hnul.
Qed.

End DataUriBranch.

(** ** Well-formed PNG data-URIs *)

Lemma extension_of_png (payload : string) :
  extension_of ("data:image/png;base64," +:+ payload) = "png".
Proof. reflexivity. Qed.

Lemma replace_data_image_prefix_png (payload : string) :
  Js.replace_data_image_prefix ("data:image/png;base64," +:+ payload) = payload.
Proof. reflexivity. Qed.

(** When the incoming record carries the identifier of the route, a PNG
    data-URI is stored as [preview_<id>.png] and the record is replaced
    with the public URL of that file. *)
Lemma replaceById_png_same_id (this : ProductController) (id : string) (product : Product)
    (payload : string) (env : io_env) (w : world) :
  Product.id product = Some id ->
  Product.previewImage product = Some ("data:image/png;base64," +:+ payload) ->
  let path := imageStorageDirectory this +:+ "/" +:+ "preview_" +:+ id +:+ ".png" in
  let url := protocol (req this) +:+ "://" +:+ Js.interpolate (headers_host (req this))
               +:+ "/product-images/" +:+ "preview_" +:+ id +:+ ".png" in
  writeFile_error env path (Buffer_from_base64 payload) = None ->
  exists rest,
    (handle env (replaceById this id product) w).2 =
      EvWriteFile path (Buffer_from_base64 payload) :: EvSettled Resolved
        :: EvWriteFileDone path None
        :: EvReplaceById (Some id) (Product.set_previewImage url product) :: rest.
Proof.
  intros Hid Hp path url Hok.
  assert (Hpath : storage_path_of this product ("data:image/png;base64," +:+ payload)
                  = path).
  { unfold storage_path_of, storageFileName_of.
    rewrite extension_of_png, Hid. reflexivity. }
  assert (Hurl : public_url_of this product ("data:image/png;base64," +:+ payload)
                 = url).
  { unfold public_url_of, storageFileName_of.
    rewrite extension_of_png, Hid. reflexivity. }
  rewrite (replaceById_data_uri_trace this id product _ Hp eq_refl);
    [|rewrite Hpath; by eapply writeFile_error_None].
  rewrite Hpath, replace_data_image_prefix_png, Hok.
  unfold record_after_write, warning_after_write.
  rewrite Hurl, Hid. simpl. eauto.
Qed.

(** ** The replace handler and the identifier of the route *)

(** C1 (evaluation at the failing input): a PUT on route id ["1"] whose
    body carries id ["2"] and a PNG data-URI writes [preview_2.png], not
    [preview_1.png], and replaces record ["2"] with the URL of that file;
    record ["1"] is left as it was. *)
Theorem replaceById_data_uri_ignores_route_id :
  let this := new_ProductController example_request in
  let product := Product.mk (Some "2") (Some "data:image/png;base64,aGk=") [] in
  let result := handle io_ok (replaceById this "1" product) two_products in
  result.2 =
    [EvWriteFile "images/product/preview_2.png" [Byte.x68; Byte.x69];
     EvSettled Resolved;
     EvWriteFileDone "images/product/preview_2.png" None;
     EvReplaceById (Some "2")
       (Product.mk (Some "2") (Some "http://h/product-images/preview_2.png") [])]
  /\ store result.1 !! "1" = Some (blank "1")
  /\ store result.1 !! "2" =
       Some (Product.mk (Some "2") (Some "http://h/product-images/preview_2.png") [])
  /\ files result.1 !! "images/product/preview_1.png" = None.
Proof. vm_compute. repeat split; reflexivity. Qed.

(** Without an id in the body the file is [preview_undefined.png] and the
    Record Store is asked for the record [undefined]; its refusal surfaces
    in the callback, after the caller has been answered. *)
Example replaceById_data_uri_without_body_id :
  let this := new_ProductController example_request in
  let product := Product.mk None (Some "data:image/png;base64,aGk=") [] in
  (handle io_ok (replaceById this "1" product) two_products).2 =
    [EvWriteFile "images/product/preview_undefined.png" [Byte.x68; Byte.x69];
     EvSettled Resolved;
     EvWriteFileDone "images/product/preview_undefined.png" None;
     EvReplaceById None
       (Product.mk None (Some "http://h/product-images/preview_undefined.png") []);
     EvUnhandledRejection (EntityNotFound None)].
Proof. reflexivity. Qed.

(** The plain branch of the same handler does use the route id. *)
Example replaceById_plain_uses_route_id :
  let this := new_ProductController example_request in
  let product := Product.mk (Some "2") (Some "http://h/x.png") [] in
  (handle io_ok (replaceById this "1" product) two_products).2 =
    [EvReplaceById (Some "1") product; EvSettled Resolved].
Proof. reflexivity. Qed.

(** ** Failure of the file write *)



(** ** Order of the two writes *)

(** C3: in the data-URI branch every request to the Record Store to replace
    the record comes after the completion of the file write that the same
    call started; a write that completes, with or without error, is
    followed by such a request; and the write does complete unless
    [fs.writeFile] refuses the storage path at the call. *)
Theorem replaceById_store_write_after_file_write (this : ProductController)
    (id : string) (product : Product) (previewImage : string)
    (env : io_env) (w : world) :
  Product.previewImage product = Some previewImage ->
  Js.startsWith previewImage "data:image" = true ->
  let tr := (handle env (replaceById this id product) w).2 in
  (forall n i p,
     tr !! n = Some (EvReplaceById i p) ->
     exists k m path data err,
       k < m /\ m < n
       /\ tr !! k = Some (EvWriteFile path data)
       /\ tr !! m = Some (EvWriteFileDone path err))
  /\ (forall m path err,
        tr !! m = Some (EvWriteFileDone path err) ->
        exists n p, m < n /\ tr !! n = Some (EvReplaceById (Product.id product) p))
  /\ (Fs.has_nul (storage_path_of this product previewImage) = false ->
      exists m err,
        tr !! m = Some (EvWriteFileDone (storage_path_of this product previewImage) err)).
Proof.
  intros Hp Hpre tr. subst tr.
  destruct (Fs.has_nul (storage_path_of this product previewImage)) eqn:Hnul.
  - destruct (replaceById_data_uri_refused this id product _ Hp Hpre env w Hnul)
      as [-> _].
    cbn [snd]. split; [|split]; [| |done].
    + intros n i p Hn. do 3 (try destruct n as [|n]); discriminate Hn.
    + intros m path err Hm. do 3 (try destruct m as [|m]); discriminate Hm.
  - rewrite (replaceById_data_uri_trace this id product _ Hp Hpre env w Hnul).
    set (P := storage_path_of this product previewImage).
    set (B := Buffer_from_base64 _).
    destruct (writeFile_error env P B) as [e|]; cbn [warning_after_write app];
      (split; [|split; [|intros _; by exists 2; eexists]]).
    + intros n i p Hn.
      destruct (replace_outcome _ _ _); cbn [unhandled] in Hn;
        do 6 (try destruct n as [|n]); try discriminate Hn;
        exists 0, 2, P, B; eexists; (split; [lia|]); (split; [lia|]);
        split; reflexivity.
    + intros m path err Hm.
      destruct (replace_outcome _ _ _); cbn [unhandled] in Hm;
        do 6 (try destruct m as [|m]); try discriminate Hm;
        exists 4; eexists; (split; [lia | reflexivity]).
    + intros n i p Hn.
      destruct (replace_outcome _ _ _); cbn [unhandled] in Hn;
        do 5 (try destruct n as [|n]); try discriminate Hn;
        exists 0, 2, P, B; eexists; (split; [lia|]); (split; [lia|]);
        split; reflexivity.
    + intros m path err Hm.
      destruct (replace_outcome _ _ _); cbn [unhandled] in Hm;
        do 5 (try destruct m as [|m]); try discriminate Hm;
        exists 3; eexists; (split; [lia | reflexivity]).
Qed.

Lemma replaceById_store_write_after_file_write_witness :
  let this := new_ProductController example_request in
  let product := Product.mk (Some "1") (Some "data:image/png;base64,aGk=") [] in
  let tr := (handle io_ok (replaceById this "1" product) two_products).2 in
  (forall n i p,
     tr !! n = Some (EvReplaceById i p) ->
     exists k m path data err,
       k < m /\ m < n
       /\ tr !! k = Some (EvWriteFile path data)
       /\ tr !! m = Some (EvWriteFileDone path err))
  /\ (forall m path err,
        tr !! m = Some (EvWriteFileDone path err) ->
        exists n p, m < n /\ tr !! n = Some (EvReplaceById (Product.id product) p))
  /\ (Fs.has_nul (storage_path_of this product "data:image/png;base64,aGk=") = false ->
      exists m err,
        tr !! m = Some (EvWriteFileDone
                          (storage_path_of this product "data:image/png;base64,aGk=") err)).
Proof.
  intros this product.
  apply (replaceById_store_write_after_file_write this "1" product
           "data:image/png;base64,aGk=" io_ok two_products); reflexivity.
Defined.

(** ** Records without an inline image *)

(** C6: when [previewImage] is absent or does not start with the data-URI
    image prefix, the only thing the handler does is ask the Record Store to
    replace record [id] with the record exactly as given; no file operation
    is started and the file store is unchanged. *)
Theorem replaceById_plain_passthrough (this : ProductController) (id : string)
    (product : Product) (env : io_env) (w : world) :
  (forall s, Product.previewImage product = Some s ->
             Js.startsWith s "data:image" = false) ->
  (handle env (replaceById this id product) w).2 =
    [EvReplaceById (Some id) product;
     EvSettled (replace_outcome (Some id) product w)]
  /\ files (handle env (replaceById this id product) w).1 = files w.
Proof.
  intros Hplain. unfold replaceById.
  assert (Hb : match Product.previewImage product with
               | Some previewImage => Js.startsWith previewImage "data:image"
               | None => false
               end = false).
  { destruct (Product.previewImage product) as [s|]; [by apply Hplain | done]. }
  rewrite Hb. unfold handle, replace_outcome. cbn [exec].
  destruct (Repository.replaceById (Some id) product (store w)); split; reflexivity.
Qed.

Lemma replaceById_plain_passthrough_witness :
  let this := new_ProductController example_request in
  let product := Product.mk (Some "1") (Some "http://h/product-images/old.png")
                   [("name", "lamp")] in
  (handle io_failing (replaceById this "1" product) two_products).2 =
    [EvReplaceById (Some "1") product;
     EvSettled (replace_outcome (Some "1") product two_products)]
  /\ files (handle io_failing (replaceById this "1" product) two_products).1
     = files two_products.
Proof.
  intros this product.
  apply (replaceById_plain_passthrough this "1" product io_failing two_products).
  intros s Hs. injection Hs as <-. reflexivity.
Defined.

(** ** Facts about the string primitives *)

Lemma append_cons (c : ascii) (a b : string) :
  String c a +:+ b = String c (a +:+ b).
Proof. reflexivity. Qed.

Lemma append_assoc (a b c : string) : (a +:+ b) +:+ c = a +:+ b +:+ c.
Proof.
  induction a as [|x a IH]; [reflexivity|].
  rewrite !append_cons. by rewrite IH.
Qed.

Lemma split_nonempty (sep : ascii) (s : string) : Js.split sep s <> [].
Proof.
  destruct s as [|c s]; [discriminate|].
  cbn [Js.split]. destruct (Ascii.eqb c sep); [discriminate|].
  destruct (Js.split sep s); discriminate.
Qed.

Lemma first_split_cons (sep c : ascii) (s : string) :
  Js.first (Js.split sep (String c s)) =
  if Ascii.eqb c sep then "" else String c (Js.first (Js.split sep s)).
Proof.
  cbn [Js.split]. destruct (Ascii.eqb c sep); [reflexivity|].
  pose proof (split_nonempty sep s).
  destruct (Js.split sep s); [done | reflexivity].
Qed.

(** The first field of a split ignores whatever follows a separator. *)
Lemma first_split_app (sep : ascii) (a b : string) :
  Js.first (Js.split sep (a +:+ String sep b)) = Js.first (Js.split sep a).
Proof.
  induction a as [|c a IH].
  - change ("" +:+ String sep b) with (String sep b).
    rewrite first_split_cons, Ascii.eqb_refl. reflexivity.
  - rewrite append_cons, !first_split_cons, IH. reflexivity.
Qed.

Lemma startsWith_cons (c d : ascii) (s p : string) :
  Js.startsWith (String c s) (String d p) =
  if Ascii.eqb d c then Js.startsWith s p else false.
Proof.
  unfold Js.startsWith. cbn [String.prefix].
  destruct (ascii_dec d c) as [->|Hne].
  - by rewrite Ascii.eqb_refl.
  - apply Ascii.eqb_neq in Hne. by rewrite Hne.
Qed.

(** A prefix of the first field is a prefix of the whole string. *)
Lemma startsWith_first_split (sep : ascii) (s p : string) :
  Js.startsWith (Js.first (Js.split sep s)) p = true -> Js.startsWith s p = true.
Proof.
  revert p. induction s as [|c s IH]; intros p.
  - done.
  - rewrite first_split_cons. destruct p as [|d p]; [done|].
    destruct (Ascii.eqb c sep); [done|].
    rewrite !startsWith_cons. destruct (Ascii.eqb d c); [apply IH | done].
Qed.

Lemma startsWith_false_first_split (sep : ascii) (s p : string) :
  Js.startsWith s p = false -> Js.startsWith (Js.first (Js.split sep s)) p = false.
Proof.
  intros H. destruct (Js.startsWith (Js.first (Js.split sep s)) p) eqn:E; [|done].
  apply startsWith_first_split in E. congruence.
Qed.

Lemma match_jpeg_png_jpg_cons (c : ascii) (s : string) :
  Js.match_jpeg_png_jpg (String c s) =
  if Js.startsWith (String c s) "jpeg" then Some "jpeg"
  else if Js.startsWith (String c s) "png" then Some "png"
  else if Js.startsWith (String c s) "jpg" then Some "jpg"
  else Js.match_jpeg_png_jpg s.
Proof. reflexivity. Qed.

Lemma match_jpeg_png_jpg_None_inv (c : ascii) (s : string) :
  Js.match_jpeg_png_jpg (String c s) = None ->
  Js.startsWith (String c s) "jpeg" = false
  /\ Js.startsWith (String c s) "png" = false
  /\ Js.startsWith (String c s) "jpg" = false
  /\ Js.match_jpeg_png_jpg s = None.
Proof.
  rewrite match_jpeg_png_jpg_cons.
  destruct (Js.startsWith (String c s) "jpeg"); [done|].
  destruct (Js.startsWith (String c s) "png"); [done|].
  destruct (Js.startsWith (String c s) "jpg"); done.
Qed.

(** If the pattern occurs nowhere in a string, it occurs nowhere in the
    string's first field. *)
Lemma match_jpeg_png_jpg_first_split (sep : ascii) (s : string) :
  Js.match_jpeg_png_jpg s = None ->
  Js.match_jpeg_png_jpg (Js.first (Js.split sep s)) = None.
Proof.
  induction s as [|c s IH]; [done|].
  intros (H1 & H2 & H3 & H4)%match_jpeg_png_jpg_None_inv.
  pose proof (startsWith_false_first_split sep _ _ H1) as G1.
  pose proof (startsWith_false_first_split sep _ _ H2) as G2.
  pose proof (startsWith_false_first_split sep _ _ H3) as G3.
  rewrite first_split_cons in G1, G2, G3 |- *.
  destruct (Ascii.eqb c sep); [done|].
  rewrite match_jpeg_png_jpg_cons, G1, G2, G3. by apply IH.
Qed.

Lemma match_jpeg_png_jpg_range (s : string) :
  known_extension (default "" (Js.match_jpeg_png_jpg s)).
Proof.
  unfold known_extension.
  induction s as [|c s IH]; [by left|].
  rewrite match_jpeg_png_jpg_cons.
  destruct (Js.startsWith (String c s) "jpeg"); [right; by left|].
  destruct (Js.startsWith (String c s) "png"); [right; right; by left|].
  destruct (Js.startsWith (String c s) "jpg"); [right; right; by right|].
  exact IH.
Qed.

Lemma known_extension_no_slash (ext : string) : known_extension ext -> no_slash ext.
Proof.
  intros [-> | [-> | [-> | ->]]]; unfold no_slash; cbn [list_ascii_of_string];
    repeat constructor; discriminate.
Qed.

(** The extension of a data-URI whose subtype holds none of the three
    names is empty. *)
Lemma extension_of_no_match (subtype rest : string) :
  Js.match_jpeg_png_jpg subtype = None ->
  extension_of ("data:image/" +:+ subtype +:+ ";" +:+ rest) = "".
Proof.
  intros Hnone. unfold extension_of.
  replace ("data:image/" +:+ subtype +:+ ";" +:+ rest)
    with (("data:image/" +:+ subtype) +:+ String ";" rest)
    by (by rewrite append_assoc).
  rewrite first_split_app.
  change ("data:image/" +:+ subtype)
    with (String "d" (String "a" (String "t" (String "a" (String ":" (String "i"
           (String "m" (String "a" (String "g" (String "e" (String "/"
              subtype))))))))))).
  rewrite !first_split_cons. cbn [Ascii.eqb Bool.eqb].
  rewrite !match_jpeg_png_jpg_cons, !startsWith_cons. cbn [Ascii.eqb Bool.eqb].
  by rewrite (match_jpeg_png_jpg_first_split _ _ Hnone).
Qed.

(** ** Unsupported image subtypes *)

(** C8 (as stated, refuted): the declared subtype [gif] holds none of the
    three names, but with no [;] after it the names are also looked for in
    what follows: the extension is [jpg] and the file [preview_1.jpg]. *)
Lemma replaceById_gif_without_semicolon :
  let this := new_ProductController example_request in
  let previewImage := "data:image/gif,R0lGjpgA" in
  let product := Product.mk (Some "1") (Some previewImage) [] in
  Js.match_jpeg_png_jpg "gif" = None
  /\ extension_of previewImage <> ""
  /\ (handle io_ok (replaceById this "1" product) two_products).2 !! 0 =
       Some (EvWriteFile "images/product/preview_1.jpg"
               (Buffer_from_base64 previewImage)).
Proof. intros this previewImage product. repeat split. discriminate. Qed.

(** C8 (amended): in the data-URI branch, when the subtype is followed by
    [;] and none of [jpeg], [png], [jpg] occurs in it, the extension is
    empty; for a record that carries the identifier of the route, the
    storage file is [preview_<id>.], with the dot and nothing after it, and
    that is the file [fs.writeFile] is called on. Unless the path holds a
    NUL byte, the handler completes normally. *)
Theorem replaceById_unsupported_subtype (this : ProductController) (id : string)
    (product : Product) (subtype rest : string) (env : io_env) (w : world) :
  Product.id product = Some id ->
  Product.previewImage product = Some ("data:image/" +:+ subtype +:+ ";" +:+ rest) ->
  Js.match_jpeg_png_jpg subtype = None ->
  let previewImage := "data:image/" +:+ subtype +:+ ";" +:+ rest in
  let path := imageStorageDirectory this +:+ "/" +:+ "preview_" +:+ id +:+ "." in
  extension_of previewImage = ""
  /\ storageFileName_of product previewImage = "preview_" +:+ id +:+ "."
  /\ (exists data, (handle env (replaceById this id product) w).2 !! 0 =
                     Some (EvWriteFile path data))
  /\ (Fs.has_nul path = false ->
      response env (replaceById this id product) w = Resolved
      /\ exists data tl,
           (handle env (replaceById this id product) w).2 =
             EvWriteFile path data :: EvSettled Resolved
               :: EvWriteFileDone path (writeFile_error env path data) :: tl).
Proof.
  intros Hid Hp Hnone previewImage path.
  pose proof (extension_of_no_match subtype rest Hnone) as Hext.
  fold previewImage in Hext, Hp.
  assert (Hpre : Js.startsWith previewImage "data:image" = true) by reflexivity.
  assert (Hname : storageFileName_of product previewImage = "preview_" +:+ id +:+ ".").
  { unfold storageFileName_of. rewrite Hext, Hid. reflexivity. }
  assert (Hpath : storage_path_of this product previewImage = path).
  { unfold storage_path_of. rewrite Hname. reflexivity. }
  split; [done|]. split; [done|].
  assert (Hfirst : forall Hnul : Fs.has_nul path = false,
             exists data tl,
               (handle env (replaceById this id product) w).2 =
                 EvWriteFile path data :: EvSettled Resolved
                   :: EvWriteFileDone path (writeFile_error env path data) :: tl).
  { intros Hnul. rewrite <- Hpath in Hnul.
    rewrite (replaceById_data_uri_trace this id product _ Hp Hpre env w Hnul), Hpath.
    eexists _, _. reflexivity. }
  split.
  - destruct (Fs.has_nul path) eqn:Hnul.
    + rewrite <- Hpath in Hnul.
      destruct (replaceById_data_uri_refused this id product _ Hp Hpre env w Hnul)
        as [-> _].
      rewrite Hpath. eexists. reflexivity.
    + destruct (Hfirst eq_refl) as (data & tl & ->). by exists data.
  - intros Hnul. split; [|by apply Hfirst].
    rewrite <- Hpath in Hnul.
    exact (replaceById_data_uri_response this id product _ Hp Hpre env w Hnul).
Qed.

Lemma replaceById_unsupported_subtype_witness :
  let this := new_ProductController example_request in
  let product := Product.mk (Some "5") (Some "data:image/gif;base64,R0lG") [] in
  let previewImage := "data:image/" +:+ "gif" +:+ ";" +:+ "base64,R0lG" in
  let path := imageStorageDirectory this +:+ "/" +:+ "preview_" +:+ "5" +:+ "." in
  extension_of previewImage = ""
  /\ storageFileName_of product previewImage = "preview_" +:+ "5" +:+ "."
  /\ (exists data, (handle io_ok (replaceById this "5" product) two_products).2 !! 0 =
                     Some (EvWriteFile path data))
  /\ (Fs.has_nul path = false ->
      response io_ok (replaceById this "5" product) two_products = Resolved
      /\ exists data tl,
           (handle io_ok (replaceById this "5" product) two_products).2 =
             EvWriteFile path data :: EvSettled Resolved
               :: EvWriteFileDone path (writeFile_error io_ok path data) :: tl).
Proof.
  intros this product.
  apply (replaceById_unsupported_subtype this "5" product "gif" "base64,R0lG"
           io_ok two_products); reflexivity.
Defined.

Example gif_storage_file :
  let this := new_ProductController example_request in
  let product := Product.mk (Some "5") (Some "data:image/gif;base64,R0lG") [] in
  (handle io_ok (replaceById this "5" product) two_products).2 !! 0 =
    Some (EvWriteFile "images/product/preview_5." [Byte.x47; Byte.x49; Byte.x46]).
Proof. reflexivity. Qed.

(** ** Values that only begin like a data-URI *)

Lemma take_drop_word (s : string) : s = take_word s +:+ Js.drop_word s.
Proof.
  induction s as [|c s IH]; [reflexivity|].
  cbn [take_word Js.drop_word]. destruct (Js.is_word_char c); [|reflexivity].
  rewrite append_cons. by rewrite <- IH.
Qed.

Lemma take_word_all (s : string) :
  Forall (fun c => Js.is_word_char c = true) (list_ascii_of_string (take_word s)).
Proof.
  induction s as [|c s IH]; [constructor|].
  cbn [take_word]. destruct (Js.is_word_char c) eqn:E; by constructor.
Qed.

Lemma strip_literal_Some (p s r : string) :
  Js.strip_literal p s = Some r -> s = p +:+ r.
Proof.
  revert s. induction p as [|a p IH]; intros s H.
  - destruct s; injection H as <-; reflexivity.
  - destruct s as [|b s]; [discriminate|]. cbn [Js.strip_literal] in H.
    destruct (Ascii.eqb a b) eqn:E; [|discriminate].
    apply Ascii.eqb_eq in E as ->. rewrite append_cons. f_equal. by apply IH.
Qed.

Lemma strip_literal_app (p r : string) : Js.strip_literal p (p +:+ r) = Some r.
Proof.
  induction p as [|a p IH]; [by destruct r|].
  rewrite append_cons. cbn [Js.strip_literal]. by rewrite Ascii.eqb_refl.
Qed.

Lemma drop_word_run (u r : string) :
  Forall (fun c => Js.is_word_char c = true) (list_ascii_of_string u) ->
  Js.drop_word (u +:+ String ";" r) = String ";" r.
Proof.
  induction u as [|c u IH]; intros H.
  - reflexivity.
  - cbn [list_ascii_of_string] in H. apply Forall_cons in H as [Hc Hu].
    rewrite append_cons. cbn [Js.drop_word]. rewrite Hc. by apply IH.
Qed.

(** The regular expression removes exactly the prefix of a well-formed
    data-URI ... *)
Lemma replace_data_image_prefix_well_formed (subtype payload : string) :
  subtype <> "" ->
  Forall (fun c => Js.is_word_char c = true) (list_ascii_of_string subtype) ->
  Js.replace_data_image_prefix ("data:image/" +:+ subtype +:+ ";base64," +:+ payload)
  = payload.
Proof.
  intros Hne Hword. unfold Js.replace_data_image_prefix.
  rewrite strip_literal_app.
  destruct subtype as [|c u]; [done|].
  pose proof Hword as Hall.
  cbn [list_ascii_of_string] in Hword. apply Forall_cons in Hword as [Hc _].
  rewrite append_cons, Hc, <- append_cons.
  change (";base64," +:+ payload) with (String ";" ("base64," +:+ payload)).
  rewrite (drop_word_run _ _ Hall). reflexivity.
Qed.

(** ... and leaves every other string as it is. *)
Lemma replace_data_image_prefix_not_well_formed (s : string) :
  ~ well_formed_data_uri s -> Js.replace_data_image_prefix s = s.
Proof.
  intros Hnot. unfold Js.replace_data_image_prefix.
  destruct (Js.strip_literal "data:image/" s) as [r|] eqn:Hr; [|done].
  destruct r as [|c r]; [done|].
  destruct (Js.is_word_char c) eqn:Hc; [|done].
  destruct (Js.strip_literal ";base64," (Js.drop_word (String c r)))
    as [payload|] eqn:Hpay; [|done].
  exfalso. apply Hnot.
  exists (take_word (String c r)), payload.
  apply strip_literal_Some in Hr, Hpay.
  split; [|split].
  - rewrite Hr at 1. f_equal. rewrite <- Hpay. apply take_drop_word.
  - cbn [take_word]. by rewrite Hc.
  - apply take_word_all.
Qed.

(** ** The stores after a replace in the data-URI branch *)

Lemma replaceById_data_uri_world (this : ProductController) (id : string)
    (product : Product) (previewImage : string) (env : io_env) (w : world) :
  Product.previewImage product = Some previewImage ->
  Js.startsWith previewImage "data:image" = true ->
  let path := storage_path_of this product previewImage in
  let buf := Buffer_from_base64 (Js.replace_data_image_prefix previewImage) in
  let err := writeFile_error env path buf in
  let final := (handle env (replaceById this id product) w).1 in
  files final = match err with
                | None => <[path := buf]> (files w)
                | Some _ => files w
                end
  /\ store final =
     if Fs.has_nul path then store w
     else match Repository.replaceById (Product.id product)
                  (record_after_write this product previewImage err) (store w) with
          | inr s => s
          | inl _ => store w
          end.
Proof.
  intros Hp Hpre path buf err final. subst final err.
  destruct (Fs.has_nul path) eqn:Hnul.
  - destruct (replaceById_data_uri_refused this id product _ Hp Hpre env w Hnul)
      as [-> _].
    unfold writeFile_error. rewrite Hnul. split; reflexivity.
  - rewrite (replaceById_data_uri_task this id product _ Hp Hpre).
    fold path buf. unfold handle, record_after_write. cbn [exec no_deferred].
    rewrite Hnul.
    destruct (writeFile_error env path buf) as [e|];
      cbn [seq exec store set_files Product.id Product.set_previewImage];
      match goal with
      | |- context [Repository.replaceById ?i ?p ?s] =>
          destruct (Repository.replaceById i p s)
      end; split; reflexivity.
Qed.

(** C9: a [previewImage] that starts with [data:image] without having the
    shape [data:image/<subtype>;base64,<payload>] still takes the
    file-writing branch; the regular expression removes nothing, so the
    whole value is decoded as base64 and [fs.writeFile] is called with
    these bytes on the storage file [preview_<id>.<ext>]. Unless the call
    refuses the path, the write runs to completion, and when it succeeds
    the file holds these bytes. *)
Theorem replaceById_prefix_only (this : ProductController) (id : string)
    (product : Product) (previewImage : string) (env : io_env) (w : world) :
  Product.previewImage product = Some previewImage ->
  Js.startsWith previewImage "data:image" = true ->
  ~ well_formed_data_uri previewImage ->
  let path := imageStorageDirectory this +:+ "/" +:+ "preview_"
                +:+ Js.interpolate (Product.id product) +:+ "."
                +:+ extension_of previewImage in
  let data := Buffer_from_base64 previewImage in
  Js.replace_data_image_prefix previewImage = previewImage
  /\ (handle env (replaceById this id product) w).2 !! 0 = Some (EvWriteFile path data)
  /\ (Fs.has_nul path = false ->
      exists tl,
        (handle env (replaceById this id product) w).2 =
          EvWriteFile path data :: EvSettled Resolved
            :: EvWriteFileDone path (writeFile_error env path data) :: tl)
  /\ (writeFile_error env path data = None ->
      files (handle env (replaceById this id product) w).1 !! path = Some data).
Proof.
  intros Hp Hpre Hshape path data.
  pose proof (replace_data_image_prefix_not_well_formed _ Hshape) as Hsame.
  change path with (storage_path_of this product previewImage).
  split; [done|].
  assert (Hcomplete : Fs.has_nul (storage_path_of this product previewImage) = false ->
            exists tl,
              (handle env (replaceById this id product) w).2 =
                EvWriteFile (storage_path_of this product previewImage) data
                  :: EvSettled Resolved
                  :: EvWriteFileDone (storage_path_of this product previewImage)
                       (writeFile_error env
                          (storage_path_of this product previewImage) data)
                  :: tl).
  { intros Hnul.
    rewrite (replaceById_data_uri_trace this id product _ Hp Hpre env w Hnul), Hsame.
    eexists. reflexivity. }
  split; [|split; [exact Hcomplete|]].
  - destruct (Fs.has_nul (storage_path_of this product previewImage)) eqn:Hnul.
    + destruct (replaceById_data_uri_refused this id product _ Hp Hpre env w Hnul)
        as [-> _].
      cbn [snd]. by rewrite Hsame.
    + by destruct (Hcomplete eq_refl) as (tl & ->).
  - intros Hok.
    destruct (replaceById_data_uri_world this id product _ env w Hp Hpre) as [Hf _].
    rewrite Hsame in Hf. fold data in Hf. rewrite Hf, Hok. apply lookup_insert_eq.
Qed.

Lemma imagery_not_well_formed : ~ well_formed_data_uri "data:imagery;base64,aGk=".
Proof.
  intros (subtype & payload & Heq & _). vm_compute in Heq. discriminate Heq.
Qed.

Lemma replaceById_prefix_only_witness :
  let this := new_ProductController example_request in
  let previewImage := "data:imagery;base64,aGk=" in
  let product := Product.mk (Some "1") (Some previewImage) [] in
  let path := imageStorageDirectory this +:+ "/" +:+ "preview_"
                +:+ Js.interpolate (Product.id product) +:+ "."
                +:+ extension_of previewImage in
  let data := Buffer_from_base64 previewImage in
  Js.replace_data_image_prefix previewImage = previewImage
  /\ (handle io_ok (replaceById this "1" product) two_products).2 !! 0
     = Some (EvWriteFile path data)
  /\ (Fs.has_nul path = false ->
      exists tl,
        (handle io_ok (replaceById this "1" product) two_products).2 =
          EvWriteFile path data :: EvSettled Resolved
            :: EvWriteFileDone path (writeFile_error io_ok path data) :: tl)
  /\ (writeFile_error io_ok path data = None ->
      files (handle io_ok (replaceById this "1" product) two_products).1 !! path
      = Some data).
Proof.
  intros this previewImage product.
  apply (replaceById_prefix_only this "1" product previewImage io_ok two_products).
  - reflexivity.
  - reflexivity.
  - exact imagery_not_well_formed.
Defined.

(** ** Decoding never fails *)

(** Text without a single base64 character decodes to the empty buffer. *)
Lemma decode_no_alphabet (s : string) :
  Forall (fun c => Base64.unbase64 c = None) (list_ascii_of_string s) ->
  Buffer_from_base64 s = [].
Proof.
  intros H. unfold Buffer_from_base64, Base64.decode.
  enough (Base64.sextets s = []) as -> by reflexivity.
  induction s as [|c s IH]; [reflexivity|].
  cbn [list_ascii_of_string] in H. apply Forall_cons in H as [Hc Hs].
  cbn [Base64.sextets]. rewrite Hc. destruct (Ascii.eqb c "="); [done | by apply IH].
Qed.

Example decode_well_formed : Buffer_from_base64 "aGk=" = [Byte.x68; Byte.x69].
Proof. reflexivity. Qed.

Example decode_skips_foreign_characters :
  Buffer_from_base64 "a G%k" = [Byte.x68; Byte.x69].
Proof. reflexivity. Qed.

Example decode_garbage : Buffer_from_base64 "?!*" = [].
Proof. reflexivity. Qed.

Example encode_example : base64_encode [Byte.x68; Byte.x69] = "aGk=".
Proof. reflexivity. Qed.









(** Whether the storage path holds a NUL byte is a matter of the image
    directory and of the identifier, not of [previewImage]. *)
Lemma storage_path_has_nul (this : ProductController) (product : Product)
    (previewImage : string) :
  Fs.has_nul (storage_path_of this product previewImage) =
  Fs.has_nul (imageStorageDirectory this)
  || Fs.has_nul (Js.interpolate (Product.id product)).
Proof.
  unfold storage_path_of, storageFileName_of. rewrite !has_nul_app.
  assert (Hext : Fs.has_nul (extension_of previewImage) = false).
  { destruct (match_jpeg_png_jpg_range (Js.first (Js.split ";" previewImage)))
      as [E|[E|[E|E]]]; unfold extension_of; by rewrite E. }
  rewrite Hext. cbn. by rewrite !orb_false_r.
Qed.




(** ** Deleting a record *)

Example previewFileName_of_url :
  previewFileName_of
    (Product.mk (Some "42") (Some "http://h/product-images/preview_42.jpg") [])
  = Some "preview_42.jpg".
Proof. reflexivity. Qed.

Lemma previewFileName_truthy (product : Product) :
  Js.truthy (previewFileName_of product) = true ->
  Js.truthy (Product.previewImage product) = true.
Proof.
  unfold previewFileName_of.
  destruct (Product.previewImage product) as [[|c s]|]; done.
Qed.

Lemma deleteById_run (this : ProductController) (id : string) (env : io_env)
    (w : world) (product : Product) :
  store w !! id = Some product ->
  let path := imageStorageDirectory this +:+ "/"
                +:+ Js.interpolate (previewFileName_of product) in
  let refused := Js.truthy (previewFileName_of product) && Fs.has_nul path in
  (handle env (deleteById this id) w).2 =
    (if Js.truthy (previewFileName_of product)
     then if Fs.has_nul path
          then [EvFindById id; EvUnlink path;
                EvSettled (Rejected (InvalidArgValue path))]
          else [EvFindById id; EvUnlink path; EvDeleteById id; EvSettled Resolved]
                 ++ unlink_events this product (unlink_error env path)
     else [EvFindById id; EvDeleteById id; EvSettled Resolved])
  /\ store (handle env (deleteById this id) w).1 =
       (if refused then store w else delete id (store w))
  /\ response env (deleteById this id) w =
       (if refused then Rejected (InvalidArgValue path) else Resolved).
Proof.
  intros Hfound path refused. subst refused.
  unfold deleteById, handle, response. cbn [exec].
  unfold Repository.findById. rewrite Hfound.
  destruct (Js.truthy (previewFileName_of product)) eqn:Hname.
  - rewrite (previewFileName_truthy _ Hname).
    unfold deleteProductPreviewImage. fold (previewFileName_of product).
    rewrite Hname. fold path. cbn [seq exec andb].
    destruct (Fs.has_nul path) eqn:Hnul; [repeat split; reflexivity|].
    unfold Repository.deleteById. rewrite Hfound. unfold unlink_events. fold path.
    destruct (unlink_error env path); cbn; repeat split; reflexivity.
  - assert (Hseq : exec env
                     ((if Js.truthy (Product.previewImage product)
                       then deleteProductPreviewImage this product
                       else Done);; AwaitDeleteById id Done) w
                   = exec env (AwaitDeleteById id Done) w).
    { destruct (Js.truthy (Product.previewImage product)); [|reflexivity].
      unfold deleteProductPreviewImage. fold (previewFileName_of product).
      rewrite Hname. reflexivity. }
    rewrite Hseq. cbn [exec andb]. unfold Repository.deleteById. rewrite Hfound.
    cbn. repeat split; reflexivity.
Qed.

(** C7 (as stated, refuted): a record whose [previewImage] is non-empty but
    ends in [/] is deleted without any file deletion being requested. *)
Lemma deleteById_trailing_slash_no_unlink :
  let this := new_ProductController example_request in
  let product := Product.mk (Some "7") (Some "http://h/product-images/") [] in
  ~ ((exists path,
        EvUnlink path ∈ (handle io_ok (deleteById this "7") (one_product product)).2)
     <-> Js.truthy (Product.previewImage product) = true).
Proof.
  intros this product [_ Hreq].
  destruct (Hreq eq_refl) as [path Hin].
  destruct (deleteById_run this "7" io_ok (one_product product) product)
    as (Htr & _); [apply lookup_insert_eq|].
  rewrite Htr in Hin. cbn in Hin.
  repeat (apply elem_of_cons in Hin as [Hin|Hin]; [discriminate Hin|]).
  by apply elem_of_nil in Hin.
Qed.

(** C7 (amended): deleting an existing record requests a file deletion
    exactly when the text after the last [/] of [previewImage] is non-empty
    (which requires [previewImage] to be non-empty); the file named is that
    text, inside the image directory. Provided [fs.unlink] accepts the path
    (no NUL byte in it), then whatever the file deletion does, the record
    deletion is requested after it, the caller gets a successful response
    and the record is gone from the Record Store. *)
Theorem deleteById_file_then_record (this : ProductController) (id : string)
    (env : io_env) (w : world) (product : Product) :
  store w !! id = Some product ->
  let tr := (handle env (deleteById this id) w).2 in
  let path := imageStorageDirectory this +:+ "/"
                +:+ Js.interpolate (previewFileName_of product) in
  ((exists path, EvUnlink path ∈ tr) <-> Js.truthy (previewFileName_of product) = true)
  /\ ((exists path, EvUnlink path ∈ tr) ->
      Js.truthy (Product.previewImage product) = true)
  /\ (forall path, EvUnlink path ∈ tr ->
      exists name, previewFileName_of product = Some name
                   /\ path = imageStorageDirectory this +:+ "/" +:+ name)
  /\ (Js.truthy (previewFileName_of product) && Fs.has_nul path = false ->
      (exists n, tr !! n = Some (EvDeleteById id)
                 /\ forall m path, tr !! m = Some (EvUnlink path) -> m < n)
      /\ response env (deleteById this id) w = Resolved
      /\ store (handle env (deleteById this id) w).1 !! id = None).
Proof.
  intros Hfound tr path.
  destruct (deleteById_run this id env w product Hfound) as (Htr & Hstore & Hresp).
  fold tr path in Htr, Hstore, Hresp. cbv zeta in Hstore, Hresp.
  assert (Hiff : (exists path, EvUnlink path ∈ tr)
                 <-> Js.truthy (previewFileName_of product) = true).
  { rewrite Htr. destruct (Js.truthy (previewFileName_of product)); split.
    - done.
    - intros _. exists path.
      destruct (Fs.has_nul path); apply elem_of_cons; right; apply list_elem_of_here.
    - intros [p Hin].
      repeat (apply elem_of_cons in Hin as [Hin|Hin]; [discriminate Hin|]).
      by apply elem_of_nil in Hin.
    - done. }
  split; [exact Hiff|]. split; [|split].
  - intros Hex. apply previewFileName_truthy. by apply Hiff.
  - intros p Hin.
    assert (Hname : Js.truthy (previewFileName_of product) = true)
      by (apply Hiff; eauto).
    rewrite Htr, Hname in Hin. subst path.
    destruct (previewFileName_of product) as [name|] eqn:E; [|done].
    exists name. split; [done|].
    unfold unlink_events in Hin. cbn [Js.interpolate] in Hin.
    destruct (Fs.has_nul _); [|destruct (unlink_error env _)];
      repeat (apply elem_of_cons in Hin as [Hin|Hin];
              [try discriminate Hin; try (by injection Hin)|]);
      by apply elem_of_nil in Hin.
  - intros Haccepted. rewrite Haccepted in Hstore, Hresp.
    split; [|split; [exact Hresp | rewrite Hstore; apply lookup_delete_eq]].
    rewrite Htr. destruct (Js.truthy (previewFileName_of product)).
    + cbn [andb] in Haccepted. rewrite Haccepted.
      exists 2. split; [reflexivity|]. intros m p Hm.
      unfold unlink_events in Hm.
      destruct (unlink_error env _);
        do 7 (try destruct m as [|m]); try discriminate Hm; lia.
    + exists 1. split; [reflexivity|]. intros m p Hm.
      do 4 (try destruct m as [|m]); discriminate Hm.
Qed.

Lemma deleteById_file_then_record_witness :
  let this := new_ProductController example_request in
  let product :=
    Product.mk (Some "42") (Some "http://h/product-images/preview_42.jpg") [] in
  let w := one_product product in
  let tr := (handle io_failing (deleteById this "42") w).2 in
  let path := imageStorageDirectory this +:+ "/"
                +:+ Js.interpolate (previewFileName_of product) in
  ((exists path, EvUnlink path ∈ tr) <-> Js.truthy (previewFileName_of product) = true)
  /\ ((exists path, EvUnlink path ∈ tr) ->
      Js.truthy (Product.previewImage product) = true)
  /\ (forall path, EvUnlink path ∈ tr ->
      exists name, previewFileName_of product = Some name
                   /\ path = imageStorageDirectory this +:+ "/" +:+ name)
  /\ (Js.truthy (previewFileName_of product) && Fs.has_nul path = false ->
      (exists n, tr !! n = Some (EvDeleteById "42")
                 /\ forall m path, tr !! m = Some (EvUnlink path) -> m < n)
      /\ response io_failing (deleteById this "42") w = Resolved
      /\ store (handle io_failing (deleteById this "42") w).1 !! "42" = None).
Proof.
  intros this product w.
  apply (deleteById_file_then_record this "42" io_failing w product).
  apply lookup_insert_eq.
Defined.

Example deleteById_spec_scenario :
  let this := new_ProductController example_request in
  let product :=
    Product.mk (Some "42") (Some "http://h/product-images/preview_42.jpg") [] in
  (handle io_failing (deleteById this "42") (one_product product)).2 =
    [EvFindById "42"; EvUnlink "images/product/preview_42.jpg"; EvDeleteById "42";
     EvSettled Resolved;
     EvUnlinkDone "images/product/preview_42.jpg" (Some (FsError "ENOENT"));
     EvConsoleWarn "Error deleting preview image for product 42" (FsError "ENOENT")].
Proof. reflexivity. Qed.

(** ** Data-URIs in the Record Store *)

Lemma two_products_free_of_data_uri : no_data_uri_persisted (store two_products).
Proof.
  intros key p Hkey v Hv. cbn [store two_products] in Hkey.
  apply lookup_insert_Some in Hkey as [[_ <-]|[_ Hkey]]; [discriminate Hv|].
  apply lookup_insert_Some in Hkey as [[_ <-]|[_ Hkey]]; [discriminate Hv|].
  by rewrite lookup_empty in Hkey.
Qed.

(** C4 (as stated, refuted): from a store without data-URIs, a replace in
    the data-URI branch whose file write fails leaves the data-URI in the
    persisted record. *)
Lemma replaceById_failed_write_persists_data_uri :
  let this := new_ProductController example_request in
  let product := Product.mk (Some "1") (Some "data:image/png;base64,aGk=") [] in
  no_data_uri_persisted (store two_products)
  /\ ~ no_data_uri_persisted
         (store (handle io_failing (replaceById this "1" product) two_products).1).
Proof.
  intros this product. split.
  - exact two_products_free_of_data_uri.
  - intros Hinv.
    assert (Hstored :
              store (handle io_failing (replaceById this "1" product) two_products).1
                !! "1" = Some product) by (vm_compute; reflexivity).
    specialize (Hinv "1" product Hstored "data:image/png;base64,aGk=" eq_refl).
    discriminate Hinv.
Qed.

Lemma replace_outcome_store_invariant (id : option string) (product : Product)
    (s : gmap string Product) :
  no_data_uri_persisted s ->
  free_of_data_uri product ->
  no_data_uri_persisted
    match Repository.replaceById id product s with
    | inr s' => s'
    | inl _ => s
    end.
Proof.
  intros Hs Hp. unfold Repository.replaceById.
  destruct id as [i|]; [|done].
  destruct (s !! i); [|done].
  intros key p Hkey.
  apply lookup_insert_Some in Hkey as [[_ <-]|[_ Hkey]]; [done | by eapply Hs].
Qed.

Lemma replaceById_plain_store (this : ProductController) (id : string)
    (product : Product) (env : io_env) (w : world) :
  free_of_data_uri product ->
  store (handle env (replaceById this id product) w).1 =
    match Repository.replaceById (Some id) product (store w) with
    | inr s => s
    | inl _ => store w
    end.
Proof.
  intros Hplain. unfold replaceById.
  assert (Hb : match Product.previewImage product with
               | Some previewImage => Js.startsWith previewImage "data:image"
               | None => false
               end = false).
  { destruct (Product.previewImage product) as [s|] eqn:E; [exact (Hplain s E) | done]. }
  rewrite Hb. unfold handle. cbn [exec].
  destruct (Repository.replaceById (Some id) product (store w)); reflexivity.
Qed.

Lemma public_url_not_data_uri (r : Request) (product : Product) (previewImage : string) :
  protocol r = "http" \/ protocol r = "https" ->
  is_data_uri (public_url_of (new_ProductController r) product previewImage) = false.
Proof.
  unfold public_url_of. cbn [req new_ProductController].
  intros [-> | ->]; reflexivity.
Qed.

(** One replace call keeps the store free of data-URIs when its file write
    does not fail. *)
Lemma replaceById_keeps_invariant (r : Request) (id : string) (product : Product)
    (env : io_env) (w : world) :
  (forall path data, writeFile_failure env path data = None) ->
  protocol r = "http" \/ protocol r = "https" ->
  no_data_uri_persisted (store w) ->
  no_data_uri_persisted
    (store (handle env (replaceById (new_ProductController r) id product) w).1).
Proof.
  intros Hok Hscheme Hinv.
  destruct (takes_data_uri_branch (Product.previewImage product)) eqn:Hbranch.
  - apply takes_data_uri_branch_Some in Hbranch as (v & Hv & Hpre).
    destruct (replaceById_data_uri_world (new_ProductController r) id product v
                env w Hv Hpre) as [_ ->].
    unfold writeFile_error.
    destruct (Fs.has_nul (storage_path_of (new_ProductController r) product v));
      [exact Hinv|].
    rewrite Hok. apply replace_outcome_store_invariant; [done|].
    intros v' Hv'. cbn in Hv'. injection Hv' as <-.
    by apply public_url_not_data_uri.
  - assert (Hfree : free_of_data_uri product).
    { intros v Hv. unfold takes_data_uri_branch in Hbranch. by rewrite Hv in Hbranch. }
    rewrite (replaceById_plain_store _ _ _ _ _ Hfree).
    by apply replace_outcome_store_invariant.
Qed.

(** One delete call keeps the store free of data-URIs. *)
Lemma deleteById_keeps_invariant (this : ProductController) (id : string)
    (env : io_env) (w : world) :
  no_data_uri_persisted (store w) ->
  no_data_uri_persisted (store (handle env (deleteById this id) w).1).
Proof.
  intros Hinv. destruct (store w !! id) as [product|] eqn:Hfound.
  - destruct (deleteById_run this id env w product Hfound) as (_ & -> & _).
    cbv zeta. destruct (_ && _); [exact Hinv|].
    intros key p Hkey. apply lookup_delete_Some in Hkey as [_ Hkey].
    by eapply Hinv.
  - unfold deleteById, handle. cbn [exec]. unfold Repository.findById.
    rewrite Hfound. exact Hinv.
Qed.

(** C4 (amended): starting from a Record Store without data-URIs, after any
    sequence of replace and delete calls in which no file write fails and
    the request scheme is http or https, no persisted record has a data-URI
    for [previewImage]. *)
Theorem serve_keeps_store_free_of_data_uri (calls : list (io_env * call)) (w : world) :
  Forall undisturbed calls ->
  no_data_uri_persisted (store w) ->
  no_data_uri_persisted (store (serve calls w)).
Proof.
  revert w. induction calls as [|[env c] rest IH]; intros w Hcalls Hinv.
  - exact Hinv.
  - apply Forall_cons in Hcalls as [Hc Hrest].
    cbn [serve]. apply IH; [exact Hrest|].
    destruct c as [r id product | r id]; cbn [task_of].
    + destruct Hc as [Hok Hscheme]. by apply replaceById_keeps_invariant.
    + by apply deleteById_keeps_invariant.
Qed.

Lemma serve_keeps_store_free_of_data_uri_witness :
  let product := Product.mk (Some "1") (Some "data:image/png;base64,aGk=") [] in
  no_data_uri_persisted
    (store (serve [(io_ok, Put example_request "1" product);
                   (io_failing, Delete example_request "2")] two_products)).
Proof.
  intros product.
  apply serve_keeps_store_free_of_data_uri.
  - repeat constructor.
  - exact two_products_free_of_data_uri.
Defined.

(** ** Serving images *)

(** C5 (as stated, refuted): a file name with [..] components is not
    rejected; it is resolved to a path outside the image directory and that
    path is handed to [res.sendFile]. *)
Lemma sendFile_follows_dot_dot :
  let this := new_ProductController example_request in
  (handle io_ok (sendFile this "/srv/app" "../../secret.env") two_products).2 =
    [EvSendFile "/srv/app/secret.env"; EvSettled Resolved]
  /\ inside_image_directory this "/srv/app" "/srv/app/secret.env" = false
  /\ ~ rejects_traversal this "/srv/app" io_ok two_products "../../secret.env".
Proof.
  intros this. split; [reflexivity|]. split; [reflexivity|].
  intros Hclaim. destruct (Hclaim eq_refl) as [[e He] _]. discriminate He.
Qed.

Example sendFile_absolute_name :
  let this := new_ProductController example_request in
  (handle io_ok (sendFile this "/srv/app" "/etc/passwd") two_products).2 =
    [EvSendFile "/etc/passwd"; EvSettled Resolved].
Proof. reflexivity. Qed.

Lemma split_plain (a t : string) :
  Forall (fun c => c <> "/"%char) (list_ascii_of_string a) ->
  Js.split "/" (a +:+ String "/" t) = a :: Js.split "/" t.
Proof.
  induction a as [|c a IH]; intros H.
  - reflexivity.
  - cbn [list_ascii_of_string] in H. apply Forall_cons in H as [Hc Ha].
    rewrite append_cons. cbn [Js.split].
    apply Ascii.eqb_neq in Hc. rewrite Hc, (IH Ha). reflexivity.
Qed.

Lemma normalize_segments_plain (allow : bool) (stack rest : list string) (s : string) :
  plain_segment s ->
  Path.normalize_segments allow stack (s :: rest) =
  Path.normalize_segments allow (s :: stack) rest.
Proof.
  intros (H0 & H1 & H2 & _). cbn [Path.normalize_segments].
  apply String.eqb_neq in H0, H1, H2. rewrite H0, H1, H2. reflexivity.
Qed.

Lemma normalize_segments_concat (allow : bool) (segs : list string) :
  Forall plain_segment segs ->
  forall (stack : list string) (t : string),
    Path.normalize_segments allow stack
      (Js.split "/" (String.concat "/" segs +:+ String "/" t)) =
    Path.normalize_segments allow (rev segs ++ stack) (Js.split "/" t).
Proof.
  induction segs as [|s segs IH]; intros Hall stack t.
  - reflexivity.
  - apply Forall_cons in Hall as [Hs Hall].
    pose proof Hs as (_ & _ & _ & Hslash).
    destruct segs as [|s' segs].
    + cbn [String.concat rev app]. rewrite (split_plain _ _ Hslash).
      by apply normalize_segments_plain.
    + change (String.concat "/" (s :: s' :: segs))
        with (s +:+ "/" +:+ String.concat "/" (s' :: segs)).
      rewrite append_assoc.
      change ("/" +:+ String.concat "/" (s' :: segs))
        with (String "/" (String.concat "/" (s' :: segs))).
      rewrite append_cons. change ("" +:+ String.concat "/" (s' :: segs))
        with (String.concat "/" (s' :: segs)).
      rewrite (split_plain _ _ Hslash), (normalize_segments_plain _ _ _ _ Hs).
      rewrite (IH Hall). cbn [rev]. by rewrite <- !app_assoc.
Qed.

Lemma plain_segment_not_absolute (s : string) :
  plain_segment s -> String.eqb s "" = false /\ Path.is_absolute s = false.
Proof.
  intros (H0 & _ & _ & Hslash). split; [by apply String.eqb_neq|].
  destruct s as [|c s]; [done|].
  cbn [list_ascii_of_string] in Hslash. apply Forall_cons in Hslash as [Hc _].
  unfold Path.is_absolute. change "/" with (String "/" "") at 1.
  rewrite startsWith_cons. apply not_eq_sym, Ascii.eqb_neq in Hc. by rewrite Hc.
Qed.

Lemma plain_images : plain_segment "images".
Proof. repeat split; try discriminate. vm_compute. repeat constructor; discriminate. Qed.

Lemma plain_product : plain_segment "product".
Proof. repeat split; try discriminate. vm_compute. repeat constructor; discriminate. Qed.

(** Normalising plain names below a normalised absolute directory appends
    them to it. *)
Lemma normalizeString_below (segs names : list string) :
  Forall plain_segment segs ->
  Forall plain_segment names ->
  Path.normalizeString
    (("/" +:+ String.concat "/" segs) +:+ "/"
       +:+ (String.concat "/" names +:+ String "/" "")) false =
  String.concat "/" (segs ++ names).
Proof.
  intros Hsegs Hnames. unfold Path.normalizeString.
  change (("/" +:+ String.concat "/" segs) +:+ "/"
            +:+ (String.concat "/" names +:+ String "/" ""))
    with (String "/" (String.concat "/" segs
                        +:+ String "/" (String.concat "/" names +:+ String "/" ""))).
  cbn [Js.split Ascii.eqb Bool.eqb].
  cbn [Path.normalize_segments String.eqb orb].
  rewrite (normalize_segments_concat _ _ Hsegs).
  rewrite (normalize_segments_concat _ _ Hnames).
  cbn [Js.split Path.normalize_segments String.eqb orb].
  rewrite app_nil_r, rev_app_distr, !rev_involutive. reflexivity.
Qed.

(** C5 (amended): the handler never rejects a file name; it resolves the
    name against the image directory and hands the result to
    [res.sendFile]. For a name that is one ordinary path segment the result
    is the file of that name directly inside the image directory. *)
Theorem sendFile_plain_name (r : Request) (segs : list string) (fileName : string)
    (env : io_env) (w : world) :
  Forall plain_segment segs ->
  plain_segment fileName ->
  let this := new_ProductController r in
  let cwd := "/" +:+ String.concat "/" segs in
  (forall name,
     (handle env (sendFile this cwd name) w).2 =
       [EvSendFile (Path.resolve cwd [imageStorageDirectory this; name]);
        EvSettled Resolved])
  /\ image_directory this cwd = "/" +:+ String.concat "/" (segs ++ ["images"; "product"])
  /\ (handle env (sendFile this cwd fileName) w).2 =
       [EvSendFile ("/" +:+ String.concat "/" (segs ++ ["images"; "product"; fileName]));
        EvSettled Resolved].
Proof.
  intros Hsegs Hname this cwd.
  destruct (plain_segment_not_absolute _ Hname) as [Hne Hrel].
  subst cwd.
  change ("/" +:+ String.concat "/" segs) with (String "/" (String.concat "/" segs)).
  assert (Hroot : Path.is_absolute (String "/" (String.concat "/" segs)) = true).
  { unfold Path.is_absolute. change "/" with (String "/" "") at 2.
    rewrite startsWith_cons. by destruct (String.concat "/" segs). }
  assert (Hdir : Path.is_absolute "images/product" = false) by reflexivity.
  split; [reflexivity|]. split.
  - unfold image_directory, Path.resolve.
    change (imageStorageDirectory this) with "images/product".
    cbn [rev app Path.resolve_loop String.eqb]. rewrite Hdir, Hroot. cbn [negb].
    change (String "/" (String.concat "/" segs) +:+ "/" +:+ "images/product" +:+ "/" +:+ "")
      with (("/" +:+ String.concat "/" segs) +:+ "/"
              +:+ (String.concat "/" ["images"; "product"] +:+ String "/" "")).
    rewrite normalizeString_below;
      [reflexivity | done | exact (Forall_cons_2 _ _ _ plain_images
                                     (Forall_cons_2 _ _ _ plain_product (Forall_nil_2 _)))].
  - unfold sendFile, handle. cbn [exec no_deferred app]. do 2 f_equal.
    unfold Path.resolve.
    change (imageStorageDirectory this) with "images/product".
    cbn [rev app Path.resolve_loop]. rewrite Hne, Hrel. cbn [String.eqb].
    rewrite Hdir, Hroot. cbn [negb].
    change (String "/" (String.concat "/" segs) +:+ "/" +:+ "images/product" +:+ "/"
              +:+ fileName +:+ "/" +:+ "")
      with (("/" +:+ String.concat "/" segs) +:+ "/"
              +:+ (String.concat "/" ["images"; "product"; fileName] +:+ String "/" "")).
    rewrite normalizeString_below;
      [reflexivity | done
      | exact (Forall_cons_2 _ _ _ plain_images
                 (Forall_cons_2 _ _ _ plain_product
                    (Forall_cons_2 _ _ _ Hname (Forall_nil_2 _))))].
Qed.

Ltac solve_plain_segment :=
  repeat split; try discriminate; vm_compute; repeat constructor; discriminate.

Lemma sendFile_plain_name_witness :
  let this := new_ProductController example_request in
  (forall name,
     (handle io_ok (sendFile this "/srv/app" name) two_products).2 =
       [EvSendFile (Path.resolve "/srv/app" [imageStorageDirectory this; name]);
        EvSettled Resolved])
  /\ image_directory this "/srv/app" = "/srv/app/images/product"
  /\ (handle io_ok (sendFile this "/srv/app" "preview_1.png") two_products).2 =
       [EvSendFile "/srv/app/images/product/preview_1.png"; EvSettled Resolved].
Proof.
  apply (sendFile_plain_name example_request ["srv"; "app"] "preview_1.png"
           io_ok two_products).
  - apply Forall_cons_2; [solve_plain_segment|].
    apply Forall_cons_2; [solve_plain_segment | apply Forall_nil_2].
  - solve_plain_segment.
Defined.

(** * Further properties of the handlers *)

(** ** More on splitting *)

Lemma split_app (sep : ascii) (a b : string) :
  Js.split sep (a +:+ String sep b) = Js.split sep a ++ Js.split sep b.
Proof.
  induction a as [|c a IH].
  - change ("" +:+ String sep b) with (String sep b).
    cbn [Js.split]. by rewrite Ascii.eqb_refl.
  - rewrite append_cons. cbn [Js.split]. rewrite IH.
    destruct (Ascii.eqb c sep); [reflexivity|].
    pose proof (split_nonempty sep a).
    destruct (Js.split sep a); [done | reflexivity].
Qed.

Lemma split_without_separator (sep : ascii) (s : string) :
  Forall (fun c => c <> sep) (list_ascii_of_string s) -> Js.split sep s = [s].
Proof.
  induction s as [|c s IH]; intros H; [reflexivity|].
  cbn [list_ascii_of_string] in H. apply Forall_cons in H as [Hc Hs].
  cbn [Js.split]. apply Ascii.eqb_neq in Hc. by rewrite Hc, (IH Hs).
Qed.

(** No field of a split contains the separator. *)
Lemma split_fields (sep : ascii) (s : string) :
  Forall (fun x => Forall (fun c => c <> sep) (list_ascii_of_string x))
    (Js.split sep s).
Proof.
  induction s as [|c s IH].
  - repeat constructor.
  - cbn [Js.split]. destruct (Ascii.eqb c sep) eqn:E.
    + apply Forall_cons. split; [constructor | exact IH].
    + pose proof (split_nonempty sep s).
      destruct (Js.split sep s) as [|h t]; [done|].
      apply Forall_cons in IH as [Hh Ht].
      apply Forall_cons. split; [|exact Ht].
      cbn [list_ascii_of_string]. apply Forall_cons. split; [|exact Hh].
      by apply Ascii.eqb_neq.
Qed.

Lemma pop_split_app (a name : string) :
  no_slash name -> Js.pop (Js.split "/" (a +:+ String "/" name)) = Some name.
Proof.
  intros Hname. unfold Js.pop.
  rewrite split_app, (split_without_separator _ _ Hname), last_app. reflexivity.
Qed.

Lemma list_ascii_of_string_app (a b : string) :
  list_ascii_of_string (a +:+ b) = list_ascii_of_string a ++ list_ascii_of_string b.
Proof.
  induction a as [|c a IH]; [reflexivity|].
  rewrite append_cons. cbn [list_ascii_of_string app]. by rewrite IH.
Qed.

Lemma no_slash_app (a b : string) : no_slash a -> no_slash b -> no_slash (a +:+ b).
Proof.
  unfold no_slash. rewrite list_ascii_of_string_app. intros Ha Hb.
  apply Forall_app. by split.
Qed.

(** ** The extension *)

(** X4: whatever the data-URI looks like, the file the replace handler
    writes is [preview_<id>.<ext>] in the image directory, with [<ext>] one
    of the empty string, [jpeg], [png] and [jpg]. *)
Theorem replaceById_storage_file_shape (this : ProductController) (id : string)
    (product : Product) (previewImage : string) (env : io_env) (w : world) :
  Product.previewImage product = Some previewImage ->
  Js.startsWith previewImage "data:image" = true ->
  exists ext data,
    known_extension ext
    /\ (handle env (replaceById this id product) w).2 !! 0 =
         Some (EvWriteFile
                 (imageStorageDirectory this +:+ "/" +:+ "preview_"
                    +:+ Js.interpolate (Product.id product) +:+ "." +:+ ext)
                 data).
Proof.
  intros Hp Hpre.
  exists (extension_of previewImage). eexists. split.
  - apply match_jpeg_png_jpg_range.
  - destruct (Fs.has_nul (storage_path_of this product previewImage)) eqn:Hnul.
    + destruct (replaceById_data_uri_refused this id product _ Hp Hpre env w Hnul)
        as [-> _].
      reflexivity.
    + rewrite (replaceById_data_uri_trace this id product _ Hp Hpre env w Hnul).
      reflexivity.
Qed.

Lemma replaceById_storage_file_shape_witness :
  let this := new_ProductController example_request in
  let product := Product.mk (Some "9") (Some "data:image/x-jpg+png;base64,AAAA") [] in
  exists ext data,
    known_extension ext
    /\ (handle io_ok (replaceById this "9" product) two_products).2 !! 0 =
         Some (EvWriteFile
                 (imageStorageDirectory this +:+ "/" +:+ "preview_"
                    +:+ Js.interpolate (Product.id product) +:+ "." +:+ ext)
                 data).
Proof.
  intros this product.
  apply (replaceById_storage_file_shape this "9" product
           "data:image/x-jpg+png;base64,AAAA" io_ok two_products); reflexivity.
Defined.

(** The first of the three names to occur wins. *)
Example extension_leftmost :
  extension_of "data:image/x-jpg+png;base64,AAAA" = "jpg".
Proof. reflexivity. Qed.

(** X5: for each of the three supported subtypes and every payload, the
    handler calls [fs.writeFile] with the decoded payload on
    [preview_<id>.<subtype>]; unless the call refuses the path, the write
    runs to completion, and after a successful write the handler asks the
    Record Store to store the URL of that file. *)
Theorem replaceById_supported_subtype (this : ProductController) (id : string)
    (product : Product) (subtype payload : string) (env : io_env) (w : world) :
  subtype = "jpeg" \/ subtype = "png" \/ subtype = "jpg" ->
  Product.previewImage product = Some ("data:image/" +:+ subtype +:+ ";base64," +:+ payload) ->
  let name := "preview_" +:+ Js.interpolate (Product.id product) +:+ "." +:+ subtype in
  let path := imageStorageDirectory this +:+ "/" +:+ name in
  let url := protocol (req this) +:+ "://" +:+ Js.interpolate (headers_host (req this))
               +:+ "/product-images/" +:+ name in
  (handle env (replaceById this id product) w).2 !! 0
    = Some (EvWriteFile path (Buffer_from_base64 payload))
  /\ (Fs.has_nul path = false ->
      exists tl,
        (handle env (replaceById this id product) w).2 =
          EvWriteFile path (Buffer_from_base64 payload) :: EvSettled Resolved
            :: EvWriteFileDone path (writeFile_error env path (Buffer_from_base64 payload))
            :: tl
        /\ (writeFile_error env path (Buffer_from_base64 payload) = None ->
            exists tl', tl = EvReplaceById (Product.id product)
                               (Product.set_previewImage url product) :: tl')).
Proof.
  intros Hsub Hp name path url.
  set (v := "data:image/" +:+ subtype +:+ ";base64," +:+ payload) in *.
  assert (Hext : extension_of v = subtype)
    by (destruct Hsub as [-> | [-> | ->]]; reflexivity).
  assert (Hdata : Js.replace_data_image_prefix v = payload)
    by (destruct Hsub as [-> | [-> | ->]]; reflexivity).
  assert (Hpre : Js.startsWith v "data:image" = true) by reflexivity.
  assert (Hpath : storage_path_of this product v = path).
  { unfold storage_path_of, storageFileName_of. by rewrite Hext. }
  assert (Hurl : public_url_of this product v = url).
  { unfold public_url_of, storageFileName_of. by rewrite Hext. }
  destruct (Fs.has_nul path) eqn:Hnul.
  - split; [|done]. rewrite <- Hpath in Hnul.
    destruct (replaceById_data_uri_refused this id product _ Hp Hpre env w Hnul)
      as [-> _].
    cbn [snd]. by rewrite Hpath, Hdata.
  - pose proof Hnul as Hnul'. rewrite <- Hpath in Hnul'.
    rewrite (replaceById_data_uri_trace this id product _ Hp Hpre env w Hnul').
    rewrite Hpath, Hdata. split; [reflexivity|].
    intros _. eexists. split; [reflexivity|].
    intros Hok. rewrite Hok. unfold record_after_write. rewrite Hurl.
    eexists. reflexivity.
Qed.

Lemma replaceById_supported_subtype_witness :
  let this := new_ProductController example_request in
  let product := Product.mk (Some "1") (Some "data:image/jpeg;base64,/9j/4AAQ") [] in
  let name := "preview_" +:+ Js.interpolate (Product.id product) +:+ "." +:+ "jpeg" in
  let path := imageStorageDirectory this +:+ "/" +:+ name in
  let url := protocol (req this) +:+ "://" +:+ Js.interpolate (headers_host (req this))
               +:+ "/product-images/" +:+ name in
  (handle io_ok (replaceById this "1" product) two_products).2 !! 0
    = Some (EvWriteFile path (Buffer_from_base64 "/9j/4AAQ"))
  /\ (Fs.has_nul path = false ->
      exists tl,
        (handle io_ok (replaceById this "1" product) two_products).2 =
          EvWriteFile path (Buffer_from_base64 "/9j/4AAQ") :: EvSettled Resolved
            :: EvWriteFileDone path (writeFile_error io_ok path (Buffer_from_base64 "/9j/4AAQ"))
            :: tl
        /\ (writeFile_error io_ok path (Buffer_from_base64 "/9j/4AAQ") = None ->
            exists tl', tl = EvReplaceById (Product.id product)
                               (Product.set_previewImage url product) :: tl')).
Proof.
  intros this product.
  apply (replaceById_supported_subtype this "1" product "jpeg" "/9j/4AAQ"
           io_ok two_products); [by left | reflexivity].
Defined.

(** ** Records that are not there *)

(** X1: deleting a record the Record Store does not have is refused with
    NotFound before anything else happens: no file deletion is requested,
    no record deletion is requested, and both stores stay as they were. *)
Theorem deleteById_missing_record (this : ProductController) (id : string)
    (env : io_env) (w : world) :
  store w !! id = None ->
  handle env (deleteById this id) w =
    (w, [EvFindById id; EvSettled (Rejected (EntityNotFound (Some id)))])
  /\ response env (deleteById this id) w = Rejected (EntityNotFound (Some id)).
Proof.
  intros Hmissing. unfold deleteById, handle, response. cbn [exec].
  unfold Repository.findById. rewrite Hmissing. split; reflexivity.
Qed.

Lemma deleteById_missing_record_witness :
  let this := new_ProductController example_request in
  handle io_ok (deleteById this "3") two_products =
    (two_products, [EvFindById "3"; EvSettled (Rejected (EntityNotFound (Some "3")))])
  /\ response io_ok (deleteById this "3") two_products
     = Rejected (EntityNotFound (Some "3")).
Proof.
  intros this.
  apply (deleteById_missing_record this "3" io_ok two_products). reflexivity.
Defined.

Lemma replaceById_plain_world (this : ProductController) (id : string)
    (product : Product) (env : io_env) (w : world) :
  (forall s, Product.previewImage product = Some s ->
             Js.startsWith s "data:image" = false) ->
  (handle env (replaceById this id product) w).1 =
    match Repository.replaceById (Some id) product (store w) with
    | inr s => set_store s w
    | inl _ => w
    end.
Proof.
  intros Hplain. unfold replaceById.
  assert (Hb : match Product.previewImage product with
               | Some previewImage => Js.startsWith previewImage "data:image"
               | None => false
               end = false).
  { destruct (Product.previewImage product) as [s|] eqn:E; [exact (Hplain s eq_refl) | done]. }
  rewrite Hb. unfold handle. cbn [exec].
  destruct (Repository.replaceById (Some id) product (store w)); reflexivity.
Qed.

(** X2: in the plain branch a replace of a record the Record Store does not
    have is reported to the caller as NotFound, and nothing is changed. *)
Theorem replaceById_plain_missing_record (this : ProductController) (id : string)
    (product : Product) (env : io_env) (w : world) :
  (forall s, Product.previewImage product = Some s ->
             Js.startsWith s "data:image" = false) ->
  store w !! id = None ->
  response env (replaceById this id product) w = Rejected (EntityNotFound (Some id))
  /\ (handle env (replaceById this id product) w).1 = w.
Proof.
  intros Hplain Hmissing. split.
  - unfold response, replaceById.
    assert (Hb : match Product.previewImage product with
                 | Some previewImage => Js.startsWith previewImage "data:image"
                 | None => false
                 end = false).
    { destruct (Product.previewImage product) as [s|] eqn:E;
        [exact (Hplain s eq_refl) | done]. }
    rewrite Hb. cbn [exec]. unfold Repository.replaceById. by rewrite Hmissing.
  - rewrite (replaceById_plain_world _ _ _ _ _ Hplain).
    unfold Repository.replaceById. by rewrite Hmissing.
Qed.

Lemma replaceById_plain_missing_record_witness :
  let this := new_ProductController example_request in
  let product := Product.mk (Some "3") None [("name", "lamp")] in
  response io_ok (replaceById this "3" product) two_products
    = Rejected (EntityNotFound (Some "3"))
  /\ (handle io_ok (replaceById this "3" product) two_products).1 = two_products.
Proof.
  intros this product.
  apply (replaceById_plain_missing_record this "3" product io_ok two_products).
  - intros s Hs. discriminate Hs.
  - reflexivity.
Defined.

(** X3: in the data-URI branch the caller is not told that the record does
    not exist. When [fs.writeFile] accepts the storage path, the response is
    a success, the file is written all the same (and stays behind when the
    write succeeds), the Record Store is unchanged, and the NotFound of the
    repository ends up as a rejection nobody handles. *)
Theorem replaceById_data_uri_missing_record (this : ProductController) (id : string)
    (product : Product) (previewImage : string) (env : io_env) (w : world) :
  Product.previewImage product = Some previewImage ->
  Js.startsWith previewImage "data:image" = true ->
  (forall key, Product.id product = Some key -> store w !! key = None) ->
  let path := storage_path_of this product previewImage in
  let data := Buffer_from_base64 (Js.replace_data_image_prefix previewImage) in
  let final := (handle env (replaceById this id product) w).1 in
  Fs.has_nul path = false ->
  response env (replaceById this id product) w = Resolved
  /\ store final = store w
  /\ last (handle env (replaceById this id product) w).2
     = Some (EvUnhandledRejection (EntityNotFound (Product.id product)))
  /\ (writeFile_error env path data = None -> files final !! path = Some data).
Proof.
  intros Hp Hpre Hmissing path data final Hnul.
  assert (Hrej : forall p, Repository.replaceById (Product.id product) p (store w)
                           = inl (EntityNotFound (Product.id product))).
  { intros p. unfold Repository.replaceById.
    destruct (Product.id product) as [key|] eqn:E; [|reflexivity].
    by rewrite (Hmissing key eq_refl). }
  destruct (replaceById_data_uri_world this id product _ env w Hp Hpre) as [Hf Hs].
  fold path data final in Hf, Hs. rewrite Hnul in Hs.
  split; [exact (replaceById_data_uri_response this id product _ Hp Hpre env w Hnul)|].
  split; [by rewrite Hs, Hrej|]. split.
  - rewrite (replaceById_data_uri_trace this id product _ Hp Hpre env w Hnul).
    fold path data. unfold replace_outcome.
    assert (Hst : forall f, store (set_files f w) = store w) by reflexivity.
    destruct (writeFile_error env path data);
      [|rewrite Hst]; rewrite Hrej; reflexivity.
  - intros Hok. rewrite Hf, Hok. apply lookup_insert_eq.
Qed.

Lemma replaceById_data_uri_missing_record_witness :
  let this := new_ProductController example_request in
  let product := Product.mk (Some "3") (Some "data:image/png;base64,aGk=") [] in
  let path := storage_path_of this product "data:image/png;base64,aGk=" in
  let data := Buffer_from_base64
                (Js.replace_data_image_prefix "data:image/png;base64,aGk=") in
  let final := (handle io_ok (replaceById this "3" product) two_products).1 in
  response io_ok (replaceById this "3" product) two_products = Resolved
  /\ store final = store two_products
  /\ last (handle io_ok (replaceById this "3" product) two_products).2
     = Some (EvUnhandledRejection (EntityNotFound (Product.id product)))
  /\ (writeFile_error io_ok path data = None -> files final !! path = Some data).
Proof.
  intros this product.
  apply (replaceById_data_uri_missing_record this "3" product
           "data:image/png;base64,aGk=" io_ok two_products).
  - reflexivity.
  - reflexivity.
  - intros key Hkey. injection Hkey as <-. reflexivity.
  - reflexivity.
Defined.

(** ** What a call leaves alone *)

(** X6: a replace call touches at most the record named by the route or by
    the incoming record, and at most the one storage file; it never removes
    a file. *)
Theorem replaceById_frame (this : ProductController) (id : string)
    (product : Product) (env : io_env) (w : world) :
  let final := (handle env (replaceById this id product) w).1 in
  (forall key, key <> id -> Product.id product <> Some key ->
               store final !! key = store w !! key)
  /\ (forall p,
        (forall v, Product.previewImage product = Some v ->
                   p <> storage_path_of this product v) ->
        files final !! p = files w !! p)
  /\ (forall p, is_Some (files w !! p) -> is_Some (files final !! p)).
Proof.
  intros final.
  destruct (takes_data_uri_branch (Product.previewImage product)) eqn:Hbranch.
  - apply takes_data_uri_branch_Some in Hbranch as (v & Hv & Hpre).
    destruct (replaceById_data_uri_world this id product v env w Hv Hpre) as [Hf Hs].
    fold final in Hf, Hs. rewrite Hf, Hs. clear Hf Hs.
    split; [|split].
    + intros key _ Hkey.
      destruct (Fs.has_nul (storage_path_of this product v)); [reflexivity|].
      unfold Repository.replaceById.
      destruct (Product.id product) as [k|]; [|reflexivity].
      destruct (store w !! k); [|reflexivity].
      apply lookup_insert_ne. congruence.
    + intros p Hp. specialize (Hp v Hv).
      destruct (writeFile_error env _ _); [reflexivity|].
      by apply lookup_insert_ne.
    + intros p Hsome.
      destruct (writeFile_error env _ _); [exact Hsome|].
      apply lookup_insert_is_Some'. by right.
  - assert (Hplain : forall s, Product.previewImage product = Some s ->
                               Js.startsWith s "data:image" = false).
    { intros s Hs. unfold takes_data_uri_branch in Hbranch. by rewrite Hs in Hbranch. }
    pose proof (replaceById_plain_world this id product env w Hplain) as Hw.
    fold final in Hw. rewrite Hw. clear Hw.
    unfold Repository.replaceById.
    destruct (store w !! id); cbn [store files set_store];
      (split; [|split]); try done.
    intros key Hkey _. by apply lookup_insert_ne.
Qed.

Lemma deleteById_files (this : ProductController) (id : string) (env : io_env)
    (w : world) (product : Product) :
  store w !! id = Some product ->
  let path := imageStorageDirectory this +:+ "/"
                +:+ Js.interpolate (previewFileName_of product) in
  files (handle env (deleteById this id) w).1 =
    if Js.truthy (previewFileName_of product)
    then match unlink_error env path with
         | None => delete path (files w)
         | Some _ => files w
         end
    else files w.
Proof.
  intros Hfound path.
  unfold deleteById, handle. cbn [exec].
  unfold Repository.findById. rewrite Hfound.
  destruct (Js.truthy (previewFileName_of product)) eqn:Hname.
  - rewrite (previewFileName_truthy _ Hname).
    unfold deleteProductPreviewImage. fold (previewFileName_of product).
    rewrite Hname. fold path. cbn [seq exec].
    destruct (Fs.has_nul path) eqn:Hnul.
    { unfold unlink_error. by rewrite Hnul. }
    unfold Repository.deleteById. rewrite Hfound.
    destruct (unlink_error env path); reflexivity.
  - assert (Hseq : exec env
                     ((if Js.truthy (Product.previewImage product)
                       then deleteProductPreviewImage this product
                       else Done);; AwaitDeleteById id Done) w
                   = exec env (AwaitDeleteById id Done) w).
    { destruct (Js.truthy (Product.previewImage product)); [|reflexivity].
      unfold deleteProductPreviewImage. fold (previewFileName_of product).
      rewrite Hname. reflexivity. }
    rewrite Hseq. cbn [exec]. unfold Repository.deleteById. rewrite Hfound.
    reflexivity.
Qed.

(** X7: a delete call leaves every other record alone, never creates or
    changes a file, and removes at most one file. *)
Theorem deleteById_frame (this : ProductController) (id : string)
    (env : io_env) (w : world) :
  let final := (handle env (deleteById this id) w).1 in
  (forall key, key <> id -> store final !! key = store w !! key)
  /\ (forall p data, files final !! p = Some data -> files w !! p = Some data)
  /\ (forall p q, is_Some (files w !! p) -> is_Some (files w !! q) ->
                  files final !! p = None -> files final !! q = None -> p = q).
Proof.
  intros final. destruct (store w !! id) as [product|] eqn:Hfound.
  - destruct (deleteById_run this id env w product Hfound) as (_ & Hs & _).
    pose proof (deleteById_files this id env w product Hfound) as Hf.
    fold final in Hs, Hf. cbv zeta in Hf. rewrite Hs, Hf. clear Hs Hf.
    split; [intros key Hkey; destruct (_ && _); [done | by apply lookup_delete_ne]|].
    destruct (Js.truthy (previewFileName_of product));
      [destruct (unlink_error env _)|].
    + split; [done|]. intros p q [x Hx] _ Hp. congruence.
    + split.
      * intros p data Hp. by apply lookup_delete_Some in Hp as [_ Hp].
      * intros p q [x Hx] [y Hy] Hp Hq.
        apply lookup_delete_None in Hp as [<-|Hp]; [|congruence].
        apply lookup_delete_None in Hq as [<-|Hq]; [done | congruence].
    + split; [done|]. intros p q [x Hx] _ Hp. congruence.
  - assert (Hrun : final = w).
    { subst final. unfold deleteById, handle. cbn [exec].
      unfold Repository.findById. by rewrite Hfound. }
    rewrite Hrun.
    split; [done|]. split; [done|]. intros p q [x Hx] _ Hp. congruence.
Qed.

(** ** The file a delete call names *)

(** X8: whatever [previewImage] a record holds, the path a delete call asks
    to remove is the image directory, a [/], and a non-empty name without
    [/] (the name can still be [..]). *)
Theorem deleteById_unlinks_inside_directory (this : ProductController) (id : string)
    (env : io_env) (w : world) (path : string) :
  EvUnlink path ∈ (handle env (deleteById this id) w).2 ->
  exists name,
    path = imageStorageDirectory this +:+ "/" +:+ name
    /\ name <> "" /\ no_slash name.
Proof.
  intros Hin. destruct (store w !! id) as [product|] eqn:Hfound.
  - destruct (deleteById_run this id env w product Hfound) as (Htr & _).
    rewrite Htr in Hin. clear Htr.
    destruct (Js.truthy (previewFileName_of product)) eqn:Htruthy.
    + destruct (previewFileName_of product) as [name|] eqn:Hname; [|done].
      exists name. split; [|split].
      * unfold unlink_events in Hin. cbn [Js.interpolate] in Hin.
        destruct (Fs.has_nul _); [|destruct (unlink_error env _)];
          repeat (apply elem_of_cons in Hin as [Hin|Hin];
                  [try discriminate Hin; try (by injection Hin)|]);
          by apply elem_of_nil in Hin.
      * intros ->. discriminate Htruthy.
      * unfold previewFileName_of in Hname.
        destruct (Product.previewImage product) as [v|]; [|done].
        apply last_Some_elem_of in Hname.
        pose proof (split_fields "/" v) as Hall.
        rewrite Forall_forall in Hall. by apply Hall.
    + repeat (apply elem_of_cons in Hin as [Hin|Hin]; [discriminate Hin|]).
      by apply elem_of_nil in Hin.
  - exfalso. unfold deleteById, handle in Hin. cbn [exec] in Hin.
    unfold Repository.findById in Hin. rewrite Hfound in Hin. cbn in Hin.
    repeat (apply elem_of_cons in Hin as [Hin|Hin]; [discriminate Hin|]).
    by apply elem_of_nil in Hin.
Qed.

Lemma deleteById_unlinks_inside_directory_witness :
  let this := new_ProductController example_request in
  let product := Product.mk (Some "8") (Some "data:image/png;base64,../../etc/x") [] in
  exists name,
    "images/product/x" = imageStorageDirectory this +:+ "/" +:+ name
    /\ name <> "" /\ no_slash name.
Proof.
  intros this product.
  apply (deleteById_unlinks_inside_directory this "8" io_ok (one_product product)
           "images/product/x").
  apply list_elem_of_lookup. exists 1. reflexivity.
Defined.

(** ** From the stored URL back to the stored file *)

Lemma public_url_of_last_segment (this : ProductController) (product : Product)
    (previewImage : string) :
  public_url_of this product previewImage =
  (protocol (req this) +:+ "://" +:+ Js.interpolate (headers_host (req this))
     +:+ "/product-images")
  +:+ String "/" (storageFileName_of product previewImage).
Proof. unfold public_url_of. rewrite !append_assoc. reflexivity. Qed.

Lemma storageFileName_no_slash (product : Product) (previewImage key : string) :
  Product.id product = Some key ->
  no_slash key ->
  no_slash (storageFileName_of product previewImage).
Proof.
  intros Hid Hkey. unfold storageFileName_of. rewrite Hid. cbn [Js.interpolate].
  apply no_slash_app; [unfold no_slash; cbn; repeat constructor; discriminate|].
  apply no_slash_app; [exact Hkey|].
  apply no_slash_app; [unfold no_slash; cbn; repeat constructor; discriminate|].
  apply known_extension_no_slash, match_jpeg_png_jpg_range.
Qed.

Lemma storageFileName_truthy (product : Product) (previewImage : string) :
  Js.truthy (Some (storageFileName_of product previewImage)) = true.
Proof. reflexivity. Qed.

(** X9: replace, then delete. When the identifier has no [/], the file a
    data-URI replace has written is exactly the file the later delete of
    that record asks to remove; with both file operations succeeding the
    file is gone again, and so is the record. *)
Theorem replaceById_then_deleteById (r r' : Request) (id key : string)
    (product : Product) (previewImage : string) (env env' : io_env) (w : world) :
  Product.previewImage product = Some previewImage ->
  Js.startsWith previewImage "data:image" = true ->
  Product.id product = Some key ->
  no_slash key ->
  is_Some (store w !! key) ->
  let this := new_ProductController r in
  let path := storage_path_of this product previewImage in
  let data := Buffer_from_base64 (Js.replace_data_image_prefix previewImage) in
  writeFile_error env path data = None ->
  let w1 := (handle env (replaceById this id product) w).1 in
  let result := handle env' (deleteById (new_ProductController r') key) w1 in
  files w1 !! path = Some data
  /\ EvUnlink path ∈ result.2
  /\ store result.1 !! key = None
  /\ (unlink_error env' path = None -> files result.1 !! path = None).
Proof.
  intros Hp Hpre Hid Hkey [old Hold] this path data Hok w1 result.
  pose proof (writeFile_error_None _ _ _ Hok) as Hnul.
  destruct (replaceById_data_uri_world this id product _ env w Hp Hpre) as [Hf Hs].
  fold path data w1 in Hf, Hs. rewrite Hok in Hf, Hs. rewrite Hnul in Hs.
  set (stored := record_after_write this product previewImage None) in *.
  assert (Hstored : store w1 !! key = Some stored).
  { rewrite Hs. unfold Repository.replaceById. rewrite Hid, Hold.
    apply lookup_insert_eq. }
  assert (Hname : previewFileName_of stored
                  = Some (storageFileName_of product previewImage)).
  { unfold previewFileName_of, stored, record_after_write.
    cbn [Product.previewImage Product.set_previewImage].
    rewrite public_url_of_last_segment.
    apply pop_split_app. by eapply storageFileName_no_slash. }
  destruct (deleteById_run (new_ProductController r') key env' w1 stored Hstored)
    as (Htr & Hst & _).
  pose proof (deleteById_files (new_ProductController r') key env' w1 stored Hstored)
    as Hfiles.
  fold result in Htr, Hst, Hfiles. cbv zeta in Htr, Hst, Hfiles.
  rewrite Hname in Htr, Hst, Hfiles.
  rewrite storageFileName_truthy in Htr, Hst, Hfiles.
  change (imageStorageDirectory (new_ProductController r') +:+ "/"
            +:+ Js.interpolate (Some (storageFileName_of product previewImage)))
    with path in Htr, Hst, Hfiles.
  rewrite Hnul in Htr, Hst. cbn [andb] in Hst.
  split; [rewrite Hf; apply lookup_insert_eq|]. split; [|split].
  - rewrite Htr. apply elem_of_cons. right. apply list_elem_of_here.
  - rewrite Hst. apply lookup_delete_eq.
  - intros Hunlink. rewrite Hfiles, Hunlink. apply lookup_delete_eq.
Qed.

Lemma replaceById_then_deleteById_witness :
  let product := Product.mk (Some "1") (Some "data:image/png;base64,aGk=") [] in
  let this := new_ProductController example_request in
  let path := storage_path_of this product "data:image/png;base64,aGk=" in
  let data := Buffer_from_base64
                (Js.replace_data_image_prefix "data:image/png;base64,aGk=") in
  let w1 := (handle io_ok (replaceById this "1" product) two_products).1 in
  let result := handle io_ok (deleteById (new_ProductController example_request) "1") w1 in
  files w1 !! path = Some data
  /\ EvUnlink path ∈ result.2
  /\ store result.1 !! "1" = None
  /\ (unlink_error io_ok path = None -> files result.1 !! path = None).
Proof.
  intros product.
  apply (replaceById_then_deleteById example_request example_request "1" "1" product
           "data:image/png;base64,aGk=" io_ok io_ok two_products).
  - reflexivity.
  - reflexivity.
  - reflexivity.
  - unfold no_slash. cbn. repeat constructor; discriminate.
  - exists (blank "1"). reflexivity.
  - reflexivity.
Defined.

(** With a [/] in the identifier the two handlers disagree about the file. *)
Example slash_in_identifier :
  let this := new_ProductController example_request in
  let product := Product.mk (Some "a/b") (Some "data:image/png;base64,aGk=") [] in
  storage_path_of this product "data:image/png;base64,aGk="
    = "images/product/preview_a/b.png"
  /\ previewFileName_of (record_after_write this product "data:image/png;base64,aGk=" None)
     = Some "b.png".
Proof. split; reflexivity. Qed.

(** ** Replacing a record with what the store holds *)

(** X10: after a data-URI replace has gone through (record present under
    the identifier of both route and body, write successful, scheme http or
    https), sending the stored record back in another replace takes the
    plain branch and changes nothing: one repository call, no file
    operation, both stores as they were. *)
Theorem replaceById_stored_record_again (r r' : Request) (id : string)
    (product : Product) (previewImage : string) (env env' : io_env) (w : world) :
  Product.previewImage product = Some previewImage ->
  Js.startsWith previewImage "data:image" = true ->
  Product.id product = Some id ->
  is_Some (store w !! id) ->
  protocol r = "http" \/ protocol r = "https" ->
  let this := new_ProductController r in
  writeFile_error env (storage_path_of this product previewImage)
    (Buffer_from_base64 (Js.replace_data_image_prefix previewImage)) = None ->
  let w1 := (handle env (replaceById this id product) w).1 in
  let stored :=
    Product.set_previewImage (public_url_of this product previewImage) product in
  store w1 !! id = Some stored
  /\ handle env' (replaceById (new_ProductController r') id stored) w1 =
       (w1, [EvReplaceById (Some id) stored; EvSettled Resolved]).
Proof.
  intros Hp Hpre Hid [old Hold] Hscheme this Hok w1 stored.
  destruct (replaceById_data_uri_world this id product _ env w Hp Hpre) as [_ Hs].
  fold w1 in Hs. rewrite Hok, (writeFile_error_None _ _ _ Hok) in Hs.
  assert (Hstored : store w1 !! id = Some stored).
  { rewrite Hs. unfold Repository.replaceById. rewrite Hid, Hold.
    apply lookup_insert_eq. }
  split; [exact Hstored|].
  assert (Hplain : Js.startsWith (public_url_of this product previewImage) "data:image"
                   = false) by (by apply public_url_not_data_uri).
  unfold replaceById. cbn [stored Product.previewImage Product.set_previewImage].
  rewrite Hplain. unfold handle. cbn [exec].
  unfold Repository.replaceById. rewrite Hstored.
  rewrite (insert_id _ _ _ Hstored). by destruct w1.
Qed.

Lemma replaceById_stored_record_again_witness :
  let product := Product.mk (Some "1") (Some "data:image/png;base64,aGk=") [] in
  let this := new_ProductController example_request in
  let w1 := (handle io_ok (replaceById this "1" product) two_products).1 in
  let stored :=
    Product.set_previewImage
      (public_url_of this product "data:image/png;base64,aGk=") product in
  store w1 !! "1" = Some stored
  /\ handle io_failing (replaceById (new_ProductController example_request) "1" stored) w1 =
       (w1, [EvReplaceById (Some "1") stored; EvSettled Resolved]).
Proof.
  intros product.
  apply (replaceById_stored_record_again example_request example_request "1" product
           "data:image/png;base64,aGk=" io_ok io_failing two_products).
  - reflexivity.
  - reflexivity.
  - reflexivity.
  - exists (blank "1"). reflexivity.
  - by left.
  - reflexivity.
Defined.

(** ** More on serving images *)

(** X11: an absolute file name is served as it stands: the path handed to
    [res.sendFile] is the normalised file name, whatever the image directory
    and the working directory are. *)
Theorem sendFile_absolute_ignores_directory (this : ProductController)
    (cwd fileName : string) (env : io_env) (w : world) :
  Path.is_absolute fileName = true ->
  (handle env (sendFile this cwd fileName) w).2 =
    [EvSendFile ("/" +:+ Path.normalizeString (fileName +:+ "/") false);
     EvSettled Resolved].
Proof.
  intros Habs.
  assert (Hne : String.eqb fileName "" = false) by (by destruct fileName).
  unfold sendFile, handle. cbn [exec no_deferred app]. do 2 f_equal.
  unfold Path.resolve. cbn [rev app Path.resolve_loop].
  rewrite Hne, Habs. reflexivity.
Qed.

Lemma sendFile_absolute_ignores_directory_witness :
  let this := new_ProductController example_request in
  (handle io_ok (sendFile this "/srv/app" "/etc/./ssl/../passwd") two_products).2 =
    [EvSendFile ("/" +:+ Path.normalizeString ("/etc/./ssl/../passwd" +:+ "/") false);
     EvSettled Resolved].
Proof.
  intros this.
  apply (sendFile_absolute_ignores_directory this "/srv/app" "/etc/./ssl/../passwd"
           io_ok two_products).
  reflexivity.
Defined.

Example sendFile_absolute_normalised :
  "/" +:+ Path.normalizeString ("/etc/./ssl/../passwd" +:+ "/") false = "/etc/passwd".
Proof. reflexivity. Qed.

Lemma resolve_loop_absolute (cwd : string) :
  Path.is_absolute cwd = true ->
  forall (rev_args : list string) (resolvedPath : string),
    (Path.resolve_loop cwd rev_args resolvedPath).2 = true.
Proof.
  intros Habs.
  assert (Hne : String.eqb cwd "" = false) by (by destruct cwd).
  induction rev_args as [|p rest IH]; intros resolvedPath; cbn [Path.resolve_loop].
  - by rewrite Hne.
  - destruct (String.eqb p ""); [apply IH|].
    destruct (Path.is_absolute p); [reflexivity | apply IH].
Qed.

(** Below the root, normalisation leaves ordinary names only. *)
Lemma normalize_segments_plain_result (segs : list string) :
  Forall no_slash segs ->
  forall stack : list string,
    Forall plain_segment stack ->
    Forall plain_segment (Path.normalize_segments false stack segs).
Proof.
  induction segs as [|seg rest IH]; intros Hsegs stack Hstack.
  - cbn [Path.normalize_segments]. by apply Forall_rev.
  - apply Forall_cons in Hsegs as [Hseg Hrest].
    cbn [Path.normalize_segments].
    destruct (String.eqb seg "") eqn:E0; [by apply IH|].
    destruct (String.eqb seg ".") eqn:E1; [by apply IH|].
    cbn [orb]. destruct (String.eqb seg "..") eqn:E2.
    + destruct stack as [|top below]; [by apply IH|].
      pose proof Hstack as Hall. apply Forall_cons in Hstack as [Htop Hbelow].
      destruct (String.eqb top ".."); cbv iota; by apply IH.
    + apply IH; [exact Hrest|]. apply Forall_cons. split; [|exact Hstack].
      apply String.eqb_neq in E0, E1, E2. by repeat split.
Qed.

(** X12: when the working directory is absolute, the path handed to
    [res.sendFile] is absolute and normalised for every file name: it has no
    empty, [.] or [..] component left. *)
Theorem sendFile_path_normalised (this : ProductController) (cwd fileName : string)
    (env : io_env) (w : world) :
  Path.is_absolute cwd = true ->
  exists segs,
    Forall plain_segment segs
    /\ (handle env (sendFile this cwd fileName) w).2 =
         [EvSendFile ("/" +:+ String.concat "/" segs); EvSettled Resolved].
Proof.
  intros Habs. unfold sendFile, handle. cbn [exec no_deferred app].
  unfold Path.resolve.
  pose proof (resolve_loop_absolute cwd Habs
                (rev [imageStorageDirectory this; fileName]) "") as Hloop.
  destruct (Path.resolve_loop cwd (rev [imageStorageDirectory this; fileName]) "")
    as [resolvedPath resolvedAbsolute].
  cbn [snd] in Hloop. subst resolvedAbsolute. cbn [negb].
  exists (Path.normalize_segments false [] (Js.split "/" resolvedPath)).
  split; [|reflexivity].
  apply normalize_segments_plain_result; [apply split_fields | constructor].
Qed.

Lemma sendFile_path_normalised_witness :
  let this := new_ProductController example_request in
  exists segs,
    Forall plain_segment segs
    /\ (handle io_ok (sendFile this "/srv/app" "a/../../../../x/./y") two_products).2 =
         [EvSendFile ("/" +:+ String.concat "/" segs); EvSettled Resolved].
Proof.
  intros this.
  apply (sendFile_path_normalised this "/srv/app" "a/../../../../x/./y"
           io_ok two_products).
  reflexivity.
Defined.

Example sendFile_climbs :
  let this := new_ProductController example_request in
  (handle io_ok (sendFile this "/srv/app" "a/../../../../x/./y") two_products).2 =
    [EvSendFile "/srv/x/y"; EvSettled Resolved].
Proof. reflexivity. Qed.

(** ** The file a replace call names *)

(** X13: when the identifier carried by the incoming record has no [/], the
    file a data-URI replace writes is a non-empty name without [/] directly
    inside the image directory, whatever the data-URI says. *)
Theorem replaceById_writes_inside_directory (this : ProductController) (id : string)
    (product : Product) (previewImage key : string) (env : io_env) (w : world)
    (path : string) (data : list Byte.byte) :
  Product.previewImage product = Some previewImage ->
  Js.startsWith previewImage "data:image" = true ->
  Product.id product = Some key ->
  no_slash key ->
  EvWriteFile path data ∈ (handle env (replaceById this id product) w).2 ->
  exists name,
    path = imageStorageDirectory this +:+ "/" +:+ name
    /\ name <> "" /\ no_slash name.
Proof.
  intros Hp Hpre Hid Hkey Hin.
  exists (storageFileName_of product previewImage). split; [|split].
  - destruct (Fs.has_nul (storage_path_of this product previewImage)) eqn:Hnul.
    + destruct (replaceById_data_uri_refused this id product _ Hp Hpre env w Hnul)
        as [Hrun _].
      rewrite Hrun in Hin. cbn [snd] in Hin.
      repeat (apply elem_of_cons in Hin as [Hin|Hin];
              [try discriminate Hin; try (by injection Hin)|]);
        by apply elem_of_nil in Hin.
    + rewrite (replaceById_data_uri_trace this id product _ Hp Hpre env w Hnul) in Hin.
      unfold warning_after_write, unhandled in Hin.
      destruct (writeFile_error env _ _); destruct (replace_outcome _ _ _);
        cbn [app] in Hin;
        repeat (apply elem_of_cons in Hin as [Hin|Hin];
                [try discriminate Hin; try (by injection Hin)|]);
        by apply elem_of_nil in Hin.
  - discriminate.
  - by eapply storageFileName_no_slash.
Qed.

Lemma replaceById_writes_inside_directory_witness :
  let this := new_ProductController example_request in
  let product := Product.mk (Some "..") (Some "data:image/../../x;base64,aGk=") [] in
  exists name,
    "images/product/preview_..." = imageStorageDirectory this +:+ "/" +:+ name
    /\ name <> "" /\ no_slash name.
Proof.
  intros this product.
  apply (replaceById_writes_inside_directory this "1" product
           "data:image/../../x;base64,aGk=" ".." io_ok two_products
           "images/product/preview_..."
           (Buffer_from_base64 "data:image/../../x;base64,aGk=")).
  - reflexivity.
  - reflexivity.
  - reflexivity.
  - unfold no_slash. cbn. repeat constructor; discriminate.
  - apply list_elem_of_lookup. exists 0. reflexivity.
Defined.

(** ** Instances of the frame properties *)

Lemma replaceById_frame_witness :
  let this := new_ProductController example_request in
  let product := Product.mk (Some "2") (Some "data:image/png;base64,aGk=") [] in
  let final := (handle io_ok (replaceById this "1" product) two_products).1 in
  (forall key, key <> "1" -> Product.id product <> Some key ->
               store final !! key = store two_products !! key)
  /\ (forall p,
        (forall v, Product.previewImage product = Some v ->
                   p <> storage_path_of this product v) ->
        files final !! p = files two_products !! p)
  /\ (forall p, is_Some (files two_products !! p) -> is_Some (files final !! p)).
Proof.
  intros this product.
  exact (replaceById_frame this "1" product io_ok two_products).
Defined.

Lemma deleteById_frame_witness :
  let this := new_ProductController example_request in
  let final := (handle io_ok (deleteById this "1") two_products).1 in
  (forall key, key <> "1" -> store final !! key = store two_products !! key)
  /\ (forall p data, files final !! p = Some data -> files two_products !! p = Some data)
  /\ (forall p q, is_Some (files two_products !! p) -> is_Some (files two_products !! q) ->
                  files final !! p = None -> files final !! q = None -> p = q).
Proof.
  intros this.
  exact (deleteById_frame this "1" io_ok two_products).
Defined.

(** ** Paths with a NUL byte *)

(** X14: when the storage path of a data-URI replace holds a NUL byte,
    [fs.writeFile] throws at the call: the caller gets that error, the
    Record Store is not asked anything, and both stores stay as they were. *)
Theorem replaceById_refused_path (this : ProductController) (id : string)
    (product : Product) (previewImage : string) (env : io_env) (w : world) :
  Product.previewImage product = Some previewImage ->
  Js.startsWith previewImage "data:image" = true ->
  let path := imageStorageDirectory this +:+ "/" +:+ "preview_"
                +:+ Js.interpolate (Product.id product) +:+ "."
                +:+ extension_of previewImage in
  Fs.has_nul (imageStorageDirectory this) = true
  \/ Fs.has_nul (Js.interpolate (Product.id product)) = true ->
  handle env (replaceById this id product) w =
    (w, [EvWriteFile path (Buffer_from_base64 (Js.replace_data_image_prefix previewImage));
         EvSettled (Rejected (InvalidArgValue path))])
  /\ response env (replaceById this id product) w = Rejected (InvalidArgValue path).
Proof.
  intros Hp Hpre path Hnul.
  apply (replaceById_data_uri_refused this id product _ Hp Hpre env w).
  rewrite storage_path_has_nul. destruct Hnul as [->| ->]; [reflexivity|].
  apply orb_true_r.
Qed.

Lemma replaceById_refused_path_witness :
  let this := new_ProductController example_request in
  let previewImage := "data:image/png;base64,aGk=" in
  let product := Product.mk (Some id_with_nul) (Some previewImage) [] in
  let path := imageStorageDirectory this +:+ "/" +:+ "preview_"
                +:+ Js.interpolate (Product.id product) +:+ "."
                +:+ extension_of previewImage in
  handle io_ok (replaceById this "1" product) (one_product product) =
    (one_product product,
     [EvWriteFile path (Buffer_from_base64 (Js.replace_data_image_prefix previewImage));
      EvSettled (Rejected (InvalidArgValue path))])
  /\ response io_ok (replaceById this "1" product) (one_product product)
     = Rejected (InvalidArgValue path).
Proof.
  intros this previewImage product.
  apply (replaceById_refused_path this "1" product previewImage io_ok
           (one_product product)).
  - reflexivity.
  - reflexivity.
  - right. reflexivity.
Defined.

(** X15: when the file name a delete call derives holds a NUL byte,
    [fs.unlink] throws at the call: the caller gets that error, the record
    deletion is never requested, and the record and all files stay. *)
Theorem deleteById_refused_path (this : ProductController) (id : string)
    (env : io_env) (w : world) (product : Product) (name : string) :
  store w !! id = Some product ->
  previewFileName_of product = Some name ->
  name <> "" ->
  Fs.has_nul (imageStorageDirectory this +:+ "/" +:+ name) = true ->
  let path := imageStorageDirectory this +:+ "/" +:+ name in
  (handle env (deleteById this id) w).2 =
    [EvFindById id; EvUnlink path; EvSettled (Rejected (InvalidArgValue path))]
  /\ response env (deleteById this id) w = Rejected (InvalidArgValue path)
  /\ store (handle env (deleteById this id) w).1 = store w
  /\ files (handle env (deleteById this id) w).1 = files w.
Proof.
  intros Hfound Hname Hne Hnul path.
  destruct (deleteById_run this id env w product Hfound) as (Htr & Hst & Hresp).
  pose proof (deleteById_files this id env w product Hfound) as Hfiles.
  cbv zeta in Htr, Hst, Hresp, Hfiles.
  rewrite Hname in Htr, Hst, Hresp, Hfiles.
  cbn [Js.interpolate Js.truthy] in Htr, Hst, Hresp, Hfiles.
  apply String.eqb_neq in Hne. rewrite Hne in Htr, Hst, Hresp, Hfiles.
  cbn [negb andb] in Htr, Hst, Hresp, Hfiles.
  fold path in Htr, Hst, Hresp, Hfiles, Hnul.
  rewrite Hnul in Htr, Hst, Hresp.
  unfold unlink_error in Hfiles. rewrite Hnul in Hfiles.
  by repeat split.
Qed.

Lemma deleteById_refused_path_witness :
  let this := new_ProductController example_request in
  let product := Product.mk (Some "6") (Some ("http://h/" +:+ id_with_nul)) [] in
  let w := one_product product in
  let path := imageStorageDirectory this +:+ "/" +:+ id_with_nul in
  (handle io_ok (deleteById this "6") w).2 =
    [EvFindById "6"; EvUnlink path; EvSettled (Rejected (InvalidArgValue path))]
  /\ response io_ok (deleteById this "6") w = Rejected (InvalidArgValue path)
  /\ store (handle io_ok (deleteById this "6") w).1 = store w
  /\ files (handle io_ok (deleteById this "6") w).1 = files w.
Proof.
  intros this product w.
  apply (deleteById_refused_path this "6" io_ok w product id_with_nul).
  - apply lookup_insert_eq.
  - reflexivity.
  - discriminate.
  - reflexivity.
Defined.
